(** * Job aggregation pipeline: extractors/jobspy/scrape_jobs.py

    A shallow embedding of the job-board aggregation script and the
    verification of its specification.  The Python functions keep their
    names; the Python builtins they call ([str.strip], [str.lower],
    [str.split], [int], [json.dumps]) are embedded in [Module Py]; the
    collaborators outside the script (the process environment, the
    [jobspy] fetch, [pathlib] and the file system) are the fields of a
    [Host] record over which every statement about [main] quantifies. *)

From Stdlib Require Import NArith ZArith Ascii String.
From stdpp Require Import base list gmap.

Local Open Scope N_scope.

(** ** Python strings and the builtins the script uses *)

Module Py.

(** A Python [str] is a sequence of Unicode code points. *)
Definition str : Type := list N.

(** Literals: the code points of a literal of ASCII characters. *)
Definition u (s : string) : str :=
  List.map N_of_ascii (list_ascii_of_string s).

(** [str.isspace] on one code point: the code points CPython's
    [Py_UNICODE_ISSPACE] accepts, which is what [strip()] and [split()]
    without arguments use. *)
Definition isspace (c : N) : bool :=
  ((0x09 <=? c) && (c <=? 0x0D)) || ((0x1C <=? c) && (c <=? 0x20))
  || (c =? 0x85) || (c =? 0xA0) || (c =? 0x1680)
  || ((0x2000 <=? c) && (c <=? 0x200A))
  || (c =? 0x2028) || (c =? 0x2029) || (c =? 0x202F) || (c =? 0x205F)
  || (c =? 0x3000).

(** [str.lower] on one code point, for the Basic Latin and Latin-1
    Supplement blocks (A-Z, and U+00C0..U+00DE without the multiplication
    sign U+00D7).  These blocks hold every key of the script's two tables;
    code points of other blocks are left as they are. *)
Definition lower_cp (c : N) : N :=
  if ((0x41 <=? c) && (c <=? 0x5A))
     || ((0xC0 <=? c) && (c <=? 0xDE) && negb (c =? 0xD7))
  then c + 0x20 else c.

Definition lower (s : str) : str := List.map lower_cp s.

(** [s.lstrip()], [s.rstrip()] and [s.strip()] without arguments. *)
Fixpoint lstrip (s : str) : str :=
  match s with
  | [] => []
  | c :: s' => if isspace c then lstrip s' else s
  end.

Fixpoint rstrip (s : str) : str :=
  match s with
  | [] => []
  | c :: s' =>
      match rstrip s' with
      | [] => if isspace c then [] else [c]
      | r => c :: r
      end
  end.

Definition strip (s : str) : str := lstrip (rstrip s).

(** Truthiness of a string: [bool(s)]. *)
Definition truthy (s : str) : bool :=
  match s with [] => false | _ => true end.

(** [c] put in front of the first piece of a split. *)
Definition cons_head (c : N) (ws : list str) : list str :=
  match ws with
  | w :: ws' => (c :: w) :: ws'
  | [] => [[c]]
  end.

Definition starts_word (s : str) : bool :=
  match s with
  | d :: _ => negb (isspace d)
  | [] => false
  end.

(** [s.split()] without arguments: the maximal runs of non-whitespace. *)
Fixpoint split (s : str) : list str :=
  match s with
  | [] => []
  | c :: s' =>
      if isspace c then split s'
      else if starts_word s' then cons_head c (split s')
      else [c] :: split s'
  end.

(** [s.split(sep)] for a separator of one code point. *)
Fixpoint split_on (sep : N) (s : str) : list str :=
  match s with
  | [] => [[]]
  | c :: s' =>
      if c =? sep then [] :: split_on sep s'
      else cons_head c (split_on sep s')
  end.

(** [sep.join(ws)]. *)
Fixpoint join (sep : str) (ws : list str) : str :=
  match ws with
  | [] => []
  | [w] => w
  | w :: ws' => w ++ sep ++ join sep ws'
  end.

(** [a == b] on strings. *)
Definition eqb (a b : str) : bool := bool_decide (a = b).

(** [s.startswith(p)]. *)
Fixpoint startswith (p s : str) : bool :=
  match p, s with
  | [], _ => true
  | a :: p', b :: s' => (a =? b) && startswith p' s'
  | _ :: _, [] => false
  end.

End Py.

Import Py.

(** ** The script's tables *)

(** U+00FC, the one character of the tables outside ASCII. *)
Definition u_umlaut : N := 0xFC.

Definition COUNTRY_ALIASES : gmap str str :=
  list_to_map
    [ (u "uk", u "united kingdom");
      (u "united kingdom", u "united kingdom");
      (u "us", u "united states");
      (u "usa", u "united states");
      (u "united states", u "united states");
      (u "t" ++ [u_umlaut] ++ u "rkiye", u "turkey");
      (u "czech republic", u "czechia") ].

Definition GLASSDOOR_COUNTRY_TO_CITY : gmap str str :=
  list_to_map
    [ (u "australia", u "Sydney");
      (u "austria", u "Vienna");
      (u "belgium", u "Brussels");
      (u "brazil", u "Sao Paulo");
      (u "canada", u "Toronto");
      (u "france", u "Paris");
      (u "germany", u "Berlin");
      (u "hong kong", u "Hong Kong");
      (u "india", u "Bengaluru");
      (u "ireland", u "Dublin");
      (u "italy", u "Milan");
      (u "mexico", u "Mexico City");
      (u "netherlands", u "Amsterdam");
      (u "new zealand", u "Auckland");
      (u "singapore", u "Singapore");
      (u "spain", u "Madrid");
      (u "switzerland", u "Zurich");
      (u "united kingdom", u "London");
      (u "united states", u "New York");
      (u "vietnam", u "Ho Chi Minh City") ].

(** ** Location normalizer *)

(** [" ".join(value.strip().lower().split())], then
    [COUNTRY_ALIASES.get(normalized, normalized)]. *)
Definition _normalize_country_token (value : str) : str :=
  let normalized := join (u " ") (split (lower (strip value))) in
  default normalized (COUNTRY_ALIASES !! normalized).

Definition _is_country_level_location (location country_indeed : str) : bool :=
  if negb (truthy (strip location)) || negb (truthy (strip country_indeed))
  then false
  else eqb (_normalize_country_token location)
           (_normalize_country_token country_indeed).

(** [country_indeed or location] is the first operand when it is truthy. *)
Definition _glassdoor_city_for_country (country_indeed location : str)
  : option str :=
  let country_key :=
    _normalize_country_token
      (if truthy country_indeed then country_indeed else location) in
  GLASSDOOR_COUNTRY_TO_CITY !! country_key.

(** ** Exceptions and results *)

(** The exception classes the script can meet: [ValueError] (the one
    [_env_int] handles), [OSError] from the file system, and any other
    class, as the fetch library may raise. *)
Inductive exn : Type :=
  | ValueError
  | OSError
  | Exception.

Inductive result (A : Type) : Type :=
  | Ok (a : A)
  | Raise (e : exn).
Arguments Ok {A} a.
Arguments Raise {A} e.

Definition is_ValueError (e : exn) : bool :=
  match e with ValueError => true | _ => false end.

(** [try: body / except ValueError: handler]. *)
Definition try_except_ValueError {A} (body handler : result A) : result A :=
  match body with
  | Ok a => Ok a
  | Raise e => if is_ValueError e then handler else Raise e
  end.

Module PyInt.

(** The whitespace [int(s)] skips around the number: C [isspace] on
    ASCII, and the Unicode spaces beyond it (which CPython first rewrites
    to an ASCII space). *)
Definition int_space (c : N) : bool :=
  ((0x09 <=? c) && (c <=? 0x0D)) || (c =? 0x20)
  || ((0x7F <=? c) && isspace c).

Definition is_digit (c : N) : bool := (0x30 <=? c) && (c <=? 0x39).

Fixpoint drop_spaces (s : str) : str :=
  match s with
  | [] => []
  | c :: s' => if int_space c then drop_spaces s' else s
  end.

(** Base-10 digits, single underscores allowed between two digits;
    [prev_us] tells that the previous character was an underscore. *)
Fixpoint digits (acc : Z) (prev_us : bool) (s : str) : option Z :=
  match s with
  | [] => if prev_us then None else Some acc
  | c :: s' =>
      if is_digit c then digits (acc * 10 + Z.of_N (c - 0x30))%Z false s'
      else if (c =? 0x5F) && negb prev_us then digits acc true s'
      else None
  end.

Definition unsigned (s : str) : option Z :=
  match s with
  | c :: _ => if is_digit c then digits 0%Z false s else None
  | [] => None
  end.

(** [int(s)] for a string: optional surrounding whitespace, an optional
    sign, then the digits; [ValueError] otherwise.  Decimal digits of
    scripts other than ASCII are not recognised here. *)
Definition int (s : str) : result Z :=
  let body := rev (drop_spaces (rev (drop_spaces s))) in
  let parsed :=
    match body with
    | 0x2D :: d => Z.opp <$> unsigned d
    | 0x2B :: d => unsigned d
    | _ => unsigned body
    end in
  match parsed with
  | Some z => Ok z
  | None => Raise ValueError
  end.

Fixpoint digits_of_pos_fuel (fuel : nat) (n : N) (acc : str) : str :=
  match fuel with
  | O => acc
  | S fuel' =>
      let acc' := (0x30 + n mod 10) :: acc in
      if n <? 10 then acc' else digits_of_pos_fuel fuel' (n / 10) acc'
  end.

(** [str(n)] for an integer: decimal digits, [-] in front when negative. *)
Definition repr (z : Z) : str :=
  let n := Z.abs_N z in
  let ds := digits_of_pos_fuel (S (N.to_nat (N.log2 n))) n [] in
  if (z <? 0)%Z then 0x2D :: ds else ds.

End PyInt.

(** ** JSON documents and [json.dumps(..., ensure_ascii=True)] *)

Module Json.

Inductive value : Type :=
  | JNull
  | JInt (z : Z)
  | JStr (s : str).

(** A Python [dict] with string keys, in insertion order. *)
Definition dict : Type := list (str * value).

(** [d[k] = v]: an existing key keeps its place. *)
Fixpoint dict_set (k : str) (v : value) (d : dict) : dict :=
  match d with
  | [] => [(k, v)]
  | (k', v') :: d' =>
      if eqb k k' then (k', v) :: d' else (k', v') :: dict_set k v d'
  end.

(** [{**d1, **d2}]. *)
Definition dict_merge (d1 d2 : dict) : dict :=
  fold_left (fun d kv => dict_set kv.1 kv.2 d) d2 d1.

Definition hex_digit (n : N) : N :=
  if n <? 10 then 0x30 + n else 0x61 + (n - 10).

(** ['{0:04x}'.format(n)] for [n < 0x10000]. *)
Definition hex4 (n : N) : str :=
  [ hex_digit (N.land (N.shiftr n 12) 0xF);
    hex_digit (N.land (N.shiftr n 8) 0xF);
    hex_digit (N.land (N.shiftr n 4) 0xF);
    hex_digit (N.land n 0xF) ].

Definition backslash : N := 0x5C.
Definition quote : N := 0x22.

(** One code point inside a JSON string: printable ASCII but the quote
    and the backslash stands for itself, the rest is escaped (beyond the
    basic plane as a surrogate pair). *)
Definition escape_cp (c : N) : str :=
  if c =? quote then [backslash; quote]
  else if c =? backslash then [backslash; backslash]
  else if (0x20 <=? c) && (c <=? 0x7E) then [c]
  else if c =? 0x08 then backslash :: u "b"
  else if c =? 0x0C then backslash :: u "f"
  else if c =? 0x0A then backslash :: u "n"
  else if c =? 0x0D then backslash :: u "r"
  else if c =? 0x09 then backslash :: u "t"
  else if c <? 0x10000 then backslash :: u "u" ++ hex4 c
  else
    let n := c - 0x10000 in
    let s1 := N.lor 0xD800 (N.land (N.shiftr n 10) 0x3FF) in
    let s2 := N.lor 0xDC00 (N.land n 0x3FF) in
    backslash :: u "u" ++ hex4 s1 ++ backslash :: u "u" ++ hex4 s2.

Definition dumps_str (s : str) : str :=
  quote :: concat (List.map escape_cp s) ++ [quote].

Definition dumps_value (v : value) : str :=
  match v with
  | JNull => u "null"
  | JInt z => PyInt.repr z
  | JStr s => dumps_str s
  end.

Definition dumps_item (kv : str * value) : str :=
  dumps_str kv.1 ++ u ": " ++ dumps_value kv.2.

Definition dumps (d : dict) : str :=
  u "{" ++ join (u ", ") (List.map dumps_item d) ++ u "}".

End Json.

Import Json.

(** ** Tabular results *)

(** A listing is a record of named fields; a missing field reads as NaN.
    The script never looks inside a listing. *)
Definition JobListing : Type := Json.dict.

(** A [pandas.DataFrame], as far as the script uses one: its column
    labels and its rows in order. *)
Record DataFrame : Type := {
  columns : list str;
  rows : list JobListing
}.

Module pd.

(** [pd.DataFrame()]: no column, no row. *)
Definition DataFrame_empty : DataFrame := {| columns := []; rows := [] |}.

(** The labels of several frames, each once, in order of first use. *)
Definition union_columns (cs : list (list str)) : list str :=
  fold_left
    (fun acc c => if bool_decide (c ∈ acc) then acc else acc ++ [c])
    (concat cs) [].

(** [pd.concat(frames, ignore_index=True)]: the rows of the frames in
    order, under the union of their columns; no frame at all is a
    [ValueError] ("No objects to concatenate"). *)
Definition concat (frames : list DataFrame) : result DataFrame :=
  match frames with
  | [] => Raise ValueError
  | _ => Ok {| columns := union_columns (List.map columns frames);
               rows := List.concat (List.map rows frames) |}
  end.

(** [len(df)]. *)
Definition len (df : DataFrame) : Z := Z.of_nat (length (rows df)).

End pd.

(** ** The host: what the script calls but does not define *)

(** The keyword arguments of one [scrape_jobs] call; [location] is absent
    when the script leaves the key out. *)
Record Kwargs : Type := {
  site_name : list str;
  search_term : str;
  results_wanted : Z;
  hours_old : Z;
  country_indeed : str;
  linkedin_fetch_description : bool;
  is_remote : bool;
  location : option str
}.

(** Paths are kept as the text [str(path)] gives. *)
Record Host : Type := {
  (** [os.getenv(name)] *)
  getenv : str -> option str;
  (** [jobspy.scrape_jobs] called with these keyword arguments *)
  scrape_jobs : Kwargs -> result DataFrame;
  (** [Path(text)] *)
  Path : str -> str;
  (** [path.with_suffix(suffix)], a [ValueError] on a path without name *)
  with_suffix : str -> str -> result str;
  (** [path.parent] *)
  parent : str -> str;
  (** [path.mkdir(parents=True, exist_ok=True)] *)
  mkdir : str -> result unit;
  (** whether [DataFrame.to_csv] and [DataFrame.to_json] can write there *)
  write_csv : str -> DataFrame -> result unit;
  write_json : str -> DataFrame -> result unit
}.

(** ** Effects *)

(** What a run does to the outside, in order. *)
Inductive effect : Type :=
  | Print (text : str)
  | Scrape (kw : Kwargs)
  | Mkdir (path : str)
  | ToCsv (path : str) (header : list str) (records : list JobListing)
  | ToJson (path : str) (records : list JobListing).

(** A computation: the effects performed, then a value or the exception
    that ended it. *)
Definition M (A : Type) : Type := list effect * result A.

Definition ret {A} (a : A) : M A := ([], Ok a).

Definition bind {A B} (m : M A) (f : A -> M B) : M B :=
  match m with
  | (t, Ok a) => let '(t', r) := f a in (t ++ t', r)
  | (t, Raise e) => (t, Raise e)
  end.

Notation "x <- m ;; k" := (bind m (fun x => k))
  (at level 100, m at next level, right associativity).
Notation "m ;; k" := (bind m (fun _ => k))
  (at level 100, right associativity).

(** A pure computation that may raise. *)
Definition lift {A} (r : result A) : M A := ([], r).

(** An effect with the outcome the host gives it. *)
Definition perform {A} (e : effect) (r : result A) : M A := ([e], r).

(** [print(text)]; standard output takes every text. *)
Definition print (text : str) : M unit := perform (Print text) (Ok tt).

(** ** Configuration resolver *)

Section Resolver.

Variable h : Host.

(** [value if value and value.strip() else default] *)
Definition _env_str (name default : str) : str :=
  match getenv h name with
  | Some value =>
      if truthy value && truthy (strip value) then value else default
  | None => default
  end.

Definition _env_int (name : str) (default : Z) : result Z :=
  match getenv h name with
  | None => Ok default
  | Some value =>
      if eqb (strip value) (u "") then Ok default
      else try_except_ValueError (PyInt.int value) (Ok default)
  end.

Definition _env_bool (name : str) (default : bool) : bool :=
  match getenv h name with
  | None => default
  | Some value =>
      if eqb (strip value) (u "") then default
      else bool_decide
             (lower (strip value)
                ∈ [u "1"; u "true"; u "yes"; u "y"; u "on"])
  end.

End Resolver.

(** ** Progress emitter *)

Definition PROGRESS_PREFIX : str := u "JOBOPS_PROGRESS ".

Definition _emit_progress (event : str) (payload : Json.dict) : M unit :=
  let serialized :=
    Json.dumps (dict_merge [(u "event", JStr event)] payload) in
  print (PROGRESS_PREFIX ++ serialized).

(** [[s.strip() for s in raw.split(",") if s.strip()]] *)
Definition _parse_sites (raw : str) : list str :=
  List.map strip (List.filter (fun s => truthy (strip s)) (split_on 0x2C raw)).

(** ** Site dispatcher, aggregation and export *)

Definition glassdoor : str := u "glassdoor".

Definition _scrape_for_sites (h : Host) (sites : list str) (search_term : str)
    (location : option str) (results_wanted hours_old : Z)
    (country_indeed : str) (linkedin_fetch_description is_remote : bool)
  : M DataFrame :=
  let kwargs (loc : option str) :=
    {| site_name := sites;
       search_term := search_term;
       results_wanted := results_wanted;
       hours_old := hours_old;
       country_indeed := country_indeed;
       linkedin_fetch_description := linkedin_fetch_description;
       is_remote := is_remote;
       location := loc |} in
  let kwargs :=
    match location with
    | Some l => if truthy l && truthy (strip l) then kwargs (Some l)
                else kwargs None
    | None => kwargs None
    end in
  perform (Scrape kwargs) (scrape_jobs h kwargs).

(** Truthiness of a list. *)
Definition nonempty {A} (l : list A) : bool :=
  match l with [] => false | _ => true end.

Definition main (h : Host) : M Z :=
  let sites := _parse_sites (_env_str h (u "JOBSPY_SITES") (u "indeed,linkedin")) in
  let search_term := _env_str h (u "JOBSPY_SEARCH_TERM") (u "web developer") in
  let location := _env_str h (u "JOBSPY_LOCATION") (u "UK") in
  results_wanted <- lift (_env_int h (u "JOBSPY_RESULTS_WANTED") 200) ;;
  hours_old <- lift (_env_int h (u "JOBSPY_HOURS_OLD") 72) ;;
  let country_indeed := _env_str h (u "JOBSPY_COUNTRY_INDEED") (u "UK") in
  let linkedin_fetch_description :=
    _env_bool h (u "JOBSPY_LINKEDIN_FETCH_DESCRIPTION") true in
  let is_remote := _env_bool h (u "JOBSPY_IS_REMOTE") false in
  term_index <- lift (_env_int h (u "JOBSPY_TERM_INDEX") 1) ;;
  term_total <- lift (_env_int h (u "JOBSPY_TERM_TOTAL") 1) ;;

  let output_csv := Path h (_env_str h (u "JOBSPY_OUTPUT_CSV") (u "jobs.csv")) in
  json_default <- lift (with_suffix h output_csv (u ".json")) ;;
  let output_json := Path h (_env_str h (u "JOBSPY_OUTPUT_JSON") json_default) in

  perform (Mkdir (parent h output_csv)) (mkdir h (parent h output_csv)) ;;
  perform (Mkdir (parent h output_json)) (mkdir h (parent h output_json)) ;;

  print (u "jobspy: Search term: " ++ search_term) ;;
  _emit_progress (u "term_start")
    [ (u "termIndex", JInt term_index);
      (u "termTotal", JInt term_total);
      (u "searchTerm", JStr search_term) ] ;;
  let frames : list DataFrame := [] in
  let non_glassdoor_sites :=
    List.filter (fun site => negb (eqb site glassdoor)) sites in

  frames <-
    (if nonempty non_glassdoor_sites then
       df <- _scrape_for_sites h non_glassdoor_sites search_term
               (Some location) results_wanted hours_old country_indeed
               linkedin_fetch_description is_remote ;;
       ret (frames ++ [df])
     else ret frames) ;;

  frames <-
    (if bool_decide (glassdoor ∈ sites) then
       let glassdoor_location := location in
       glassdoor_location <-
         (if _is_country_level_location location country_indeed then
            let fallback_city :=
              _glassdoor_city_for_country country_indeed location in
            match fallback_city with
            | Some city =>
                if truthy city then
                  print (u "jobspy: Glassdoor location matched country; using city fallback ("
                           ++ city ++ u ")") ;;
                  ret city
                else
                  print (u "jobspy: Glassdoor location matched country; keeping original location") ;;
                  ret glassdoor_location
            | None =>
                print (u "jobspy: Glassdoor location matched country; keeping original location") ;;
                ret glassdoor_location
            end
          else ret glassdoor_location) ;;
       df <- _scrape_for_sites h [glassdoor] search_term
               (Some glassdoor_location) results_wanted hours_old
               country_indeed linkedin_fetch_description is_remote ;;
       ret (frames ++ [df])
     else ret frames) ;;

  jobs <- (if nonempty frames then lift (pd.concat frames)
           else ret pd.DataFrame_empty) ;;

  print (u "Found " ++ PyInt.repr (pd.len jobs) ++ u " jobs") ;;
  _emit_progress (u "term_complete")
    [ (u "termIndex", JInt term_index);
      (u "termTotal", JInt term_total);
      (u "searchTerm", JStr search_term);
      (u "jobsFoundTerm", JInt (pd.len jobs)) ] ;;

  perform (ToCsv output_csv (columns jobs) (rows jobs))
          (write_csv h output_csv jobs) ;;
  perform (ToJson output_json (rows jobs)) (write_json h output_json jobs) ;;

  print (u "Wrote CSV:  " ++ output_csv) ;;
  print (u "Wrote JSON: " ++ output_json) ;;
  ret 0%Z.

(** ** The normalizer as the specification words it *)



Definition alias_resolve (token : str) : str :=
  default token (COUNTRY_ALIASES !! token).


(** [not s.strip()]. *)
Definition blank (s : str) : Prop := strip s = [].

(** The text [_normalize_country_token] looks up in the alias table. *)
Definition canon (value : str) : str :=
  join (u " ") (split (lower (strip value))).

(** A word: a non-empty string without whitespace. *)
Definition nospace (w : str) : Prop := Forall (fun c => isspace c = false) w.
Definition is_word (w : str) : Prop := w <> [] /\ nospace w.

Definition space : str := [0x20].

(** ** Reading a run *)

Definition trace {A} (m : M A) : list effect := m.1.
Definition outcome {A} (m : M A) : result A := m.2.

(** The fetch calls of a trace, in order. *)
Definition scrapes (t : list effect) : list Kwargs :=
  omap (fun e => match e with Scrape kw => Some kw | _ => None end) t.

(** The texts printed, in order. *)
Definition prints (t : list effect) : list str :=
  omap (fun e => match e with Print text => Some text | _ => None end) t.

(** A supervising process takes the printed texts that start with the
    marker for progress events. *)
Definition progress_events (t : list effect) : list str :=
  List.filter (startswith PROGRESS_PREFIX) (prints t).

(** The files a run writes, in order: path, header row if any, records
    (a write the host refuses is listed too; it ends the run). *)
Definition exports (t : list effect)
  : list (str * option (list str) * list JobListing) :=
  omap (fun e => match e with
                 | ToCsv p hd rs => Some (p, Some hd, rs)
                 | ToJson p rs => Some (p, None, rs)
                 | _ => None
                 end) t.

(** The two site groups of the specification: every requested site but
    the city-granularity one, and that one if it was requested. *)
Definition generic_group (sites : list str) : list str :=
  List.filter (fun site => negb (eqb site glassdoor)) sites.
Definition city_group (sites : list str) : list str :=
  if bool_decide (glassdoor ∈ sites) then [glassdoor] else [].

Section Settings.

Variable h : Host.

(** The settings [main] resolves. *)
Definition requested_sites : list str :=
  _parse_sites (_env_str h (u "JOBSPY_SITES") (u "indeed,linkedin")).
Definition requested_location : str :=
  _env_str h (u "JOBSPY_LOCATION") (u "UK").
Definition requested_country : str :=
  _env_str h (u "JOBSPY_COUNTRY_INDEED") (u "UK").
Definition requested_term : str :=
  _env_str h (u "JOBSPY_SEARCH_TERM") (u "web developer").

(** An integer setting, once [_env_int] has returned. *)
Definition int_setting (name : str) (default : Z) : Z :=
  match _env_int h name default with
  | Ok z => z
  | Raise _ => default
  end.

Definition csv_path : str :=
  Path h (_env_str h (u "JOBSPY_OUTPUT_CSV") (u "jobs.csv")).
Definition json_path (json_default : str) : str :=
  Path h (_env_str h (u "JOBSPY_OUTPUT_JSON") json_default).


(** The location the specification gives the city-granularity group. *)
Definition effective_location : str :=
  if _is_country_level_location requested_location requested_country then
    match _glassdoor_city_for_country requested_country requested_location with
    | Some city => city
    | None => requested_location
    end
  else requested_location.

(** The request of one group. *)
Definition request (sites : list str) (loc : str) : Kwargs :=
  {| site_name := sites;
     search_term := requested_term;
     results_wanted := int_setting (u "JOBSPY_RESULTS_WANTED") 200;
     hours_old := int_setting (u "JOBSPY_HOURS_OLD") 72;
     country_indeed := requested_country;
     linkedin_fetch_description :=
       _env_bool h (u "JOBSPY_LINKEDIN_FETCH_DESCRIPTION") true;
     is_remote := _env_bool h (u "JOBSPY_IS_REMOTE") false;
     location := Some loc |}.

(** One request per non-empty group, the generic group first. *)
Definition dispatch_plan : list Kwargs :=
  (if nonempty (generic_group requested_sites)
   then [request (generic_group requested_sites) requested_location] else [])
  ++ (if nonempty (city_group requested_sites)
      then [request (city_group requested_sites) effective_location] else []).

(** The progress documents of the specification. *)
Definition term_start_event : str :=
  PROGRESS_PREFIX ++ Json.dumps
    [ (u "event", JStr (u "term_start"));
      (u "termIndex", JInt (int_setting (u "JOBSPY_TERM_INDEX") 1));
      (u "termTotal", JInt (int_setting (u "JOBSPY_TERM_TOTAL") 1));
      (u "searchTerm", JStr requested_term) ].
Definition term_complete_event (jobsFoundTerm : Z) : str :=
  PROGRESS_PREFIX ++ Json.dumps
    [ (u "event", JStr (u "term_complete"));
      (u "termIndex", JInt (int_setting (u "JOBSPY_TERM_INDEX") 1));
      (u "termTotal", JInt (int_setting (u "JOBSPY_TERM_TOTAL") 1));
      (u "searchTerm", JStr requested_term);
      (u "jobsFoundTerm", JInt jobsFoundTerm) ].


End Settings.

(** ** The shape of a run that returns *)

Section Anatomy.

Variable h : Host.

(** The rows of the aggregated batch for the frames fetched. *)
Definition batch (frames : list DataFrame) : DataFrame :=
  {| columns := pd.union_columns (List.map columns frames);
     rows := concat (List.map rows frames) |}.

(** The advisory line of the city-granularity group. *)
Definition fallback_notice : list effect :=
  if _is_country_level_location (requested_location h) (requested_country h)
  then
    match _glassdoor_city_for_country (requested_country h)
            (requested_location h) with
    | Some city =>
        [Print (u "jobspy: Glassdoor location matched country; using city fallback ("
                  ++ city ++ u ")")]
    | None =>
        [Print (u "jobspy: Glassdoor location matched country; keeping original location")]
    end
  else [].

Definition dispatch_effects : list effect :=
  (if nonempty (generic_group (requested_sites h))
   then [Scrape (request h (generic_group (requested_sites h))
                   (requested_location h))]
   else [])
  ++ (if nonempty (city_group (requested_sites h))
      then fallback_notice
             ++ [Scrape (request h (city_group (requested_sites h))
                           (effective_location h))]
      else []).

Definition opening (json_default : str) : list effect :=
  [ Mkdir (parent h (csv_path h));
    Mkdir (parent h (json_path h json_default));
    Print (u "jobspy: Search term: " ++ requested_term h) ].

Definition closing (json_default : str) (jobs : DataFrame) : list effect :=
  [ ToCsv (csv_path h) (columns jobs) (rows jobs);
    ToJson (json_path h json_default) (rows jobs);
    Print (u "Wrote CSV:  " ++ csv_path h);
    Print (u "Wrote JSON: " ++ json_path h json_default) ].

Definition success_trace (json_default : str) (frames : list DataFrame)
  : list effect :=
  let jobs := batch frames in
  opening json_default
  ++ [Print (term_start_event h)]
  ++ (dispatch_effects
      ++ [Print (u "Found " ++ PyInt.repr (pd.len jobs) ++ u " jobs")])
  ++ [Print (term_complete_event h (pd.len jobs))]
  ++ closing json_default jobs.

(** Each planned request answered by its frame. *)
Definition fetched (frames : list DataFrame) : Prop :=
  Forall2 (fun kw df => scrape_jobs h kw = Ok df) (dispatch_plan h) frames.

(** What can end a run early: an exception of a collaborator, met in
    this order. *)
Definition cause (e : exn) : Prop :=
  with_suffix h (csv_path h) (u ".json") = Raise e
  \/ exists json_default,
       with_suffix h (csv_path h) (u ".json") = Ok json_default
       /\ (mkdir h (parent h (csv_path h)) = Raise e
           \/ mkdir h (parent h (json_path h json_default)) = Raise e
           \/ (exists kw, kw ∈ dispatch_plan h /\ scrape_jobs h kw = Raise e)
           \/ (exists frames,
                 fetched frames
                 /\ (write_csv h (csv_path h) (batch frames) = Raise e
                     \/ write_json h (json_path h json_default)
                          (batch frames) = Raise e))).

(** The runs of the script: either every collaborator answers and the
    run returns 0 after the full trace, or the exception of one ends it,
    the fetches made so far being the first of the plan. *)
Inductive run_of : M Z -> Prop :=
  | run_returns (json_default : str) (frames : list DataFrame) :
      with_suffix h (csv_path h) (u ".json") = Ok json_default ->
      mkdir h (parent h (csv_path h)) = Ok tt ->
      mkdir h (parent h (json_path h json_default)) = Ok tt ->
      fetched frames ->
      write_csv h (csv_path h) (batch frames) = Ok tt ->
      write_json h (json_path h json_default) (batch frames) = Ok tt ->
      run_of (success_trace json_default frames, Ok 0%Z)
  | run_raises (t : list effect) (e : exn) :
      cause e ->
      scrapes t `prefix_of` dispatch_plan h ->
      run_of (t, Raise e).

End Anatomy.

(** ** Sample hosts *)

Definition env_of (vars : list (str * str)) (name : str) : option str :=
  snd <$> List.find (fun kv => eqb name kv.1) vars.

(** A host with the given environment and fetch, whose file system lets
    everything through. *)
Definition sample_host (vars : list (str * str))
    (fetch : Kwargs -> result DataFrame) : Host :=
  {| getenv := env_of vars;
     scrape_jobs := fetch;
     Path := fun text => text;
     with_suffix := fun path suffix => Ok (path ++ suffix);
     parent := fun _ => u ".";
     mkdir := fun _ => Ok tt;
     write_csv := fun _ _ => Ok tt;
     write_json := fun _ _ => Ok tt |}.

Definition listing (title : str) : JobListing := [(u "title", JStr title)].

(** Two listings for the city-granularity group, one for any other. *)
Definition sample_fetch (kw : Kwargs) : result DataFrame :=
  if bool_decide (site_name kw = [glassdoor])
  then Ok {| columns := [u "title"];
             rows := [listing (u "g1"); listing (u "g2")] |}
  else Ok {| columns := [u "title"]; rows := [listing (u "a")] |}.

(** ** Sample hosts that fail *)



(** ** Every run in detail *)

Section Detail.

Variable h : Host.

(** The effects of fetching the given requests one after the other; the
    advisory line comes before the fetch of the city-granularity
    group. *)
Definition fetch_effects (plan : list Kwargs) : list effect :=
  List.flat_map
    (fun kw => (if bool_decide (site_name kw = [glassdoor])
                then fallback_notice h else [])
               ++ [Scrape kw])
    plan.

(** The two lines that report the batch. *)
Definition report (jobs : DataFrame) : list effect :=
  [ Print (u "Found " ++ PyInt.repr (pd.len jobs) ++ u " jobs");
    Print (term_complete_event h (pd.len jobs)) ].

(** Requests answered by frames, one for one. *)
Definition answered (kws : list Kwargs) (frames : list DataFrame) : Prop :=
  Forall2 (fun kw df => scrape_jobs h kw = Ok df) kws frames.

(** The runs of the script with the trace each leaves: a run goes as
    far as the first collaborator that raises, and ends there with that
    exception. *)
Inductive run_detail : M Z -> Prop :=
  | detail_returns (jd : str) (frames : list DataFrame) :
      with_suffix h (csv_path h) (u ".json") = Ok jd ->
      mkdir h (parent h (csv_path h)) = Ok tt ->
      mkdir h (parent h (json_path h jd)) = Ok tt ->
      fetched h frames ->
      write_csv h (csv_path h) (batch frames) = Ok tt ->
      write_json h (json_path h jd) (batch frames) = Ok tt ->
      run_detail (success_trace h jd frames, Ok 0%Z)
  | detail_json_default (e : exn) :
      with_suffix h (csv_path h) (u ".json") = Raise e ->
      run_detail ([], Raise e)
  | detail_mkdir_csv (jd : str) (e : exn) :
      with_suffix h (csv_path h) (u ".json") = Ok jd ->
      mkdir h (parent h (csv_path h)) = Raise e ->
      run_detail ([Mkdir (parent h (csv_path h))], Raise e)
  | detail_mkdir_json (jd : str) (e : exn) :
      with_suffix h (csv_path h) (u ".json") = Ok jd ->
      mkdir h (parent h (csv_path h)) = Ok tt ->
      mkdir h (parent h (json_path h jd)) = Raise e ->
      run_detail ([ Mkdir (parent h (csv_path h));
                    Mkdir (parent h (json_path h jd)) ], Raise e)
  | detail_fetch (jd : str) (done : list Kwargs) (frames : list DataFrame)
      (kw : Kwargs) (rest : list Kwargs) (e : exn) :
      with_suffix h (csv_path h) (u ".json") = Ok jd ->
      mkdir h (parent h (csv_path h)) = Ok tt ->
      mkdir h (parent h (json_path h jd)) = Ok tt ->
      dispatch_plan h = done ++ kw :: rest ->
      answered done frames ->
      scrape_jobs h kw = Raise e ->
      run_detail (opening h jd ++ [Print (term_start_event h)]
                  ++ fetch_effects (done ++ [kw]), Raise e)
  | detail_write_csv (jd : str) (frames : list DataFrame) (e : exn) :
      with_suffix h (csv_path h) (u ".json") = Ok jd ->
      mkdir h (parent h (csv_path h)) = Ok tt ->
      mkdir h (parent h (json_path h jd)) = Ok tt ->
      fetched h frames ->
      write_csv h (csv_path h) (batch frames) = Raise e ->
      run_detail (opening h jd ++ [Print (term_start_event h)]
                  ++ dispatch_effects h ++ report (batch frames)
                  ++ [ToCsv (csv_path h) (columns (batch frames))
                        (rows (batch frames))], Raise e)
  | detail_write_json (jd : str) (frames : list DataFrame) (e : exn) :
      with_suffix h (csv_path h) (u ".json") = Ok jd ->
      mkdir h (parent h (csv_path h)) = Ok tt ->
      mkdir h (parent h (json_path h jd)) = Ok tt ->
      fetched h frames ->
      write_csv h (csv_path h) (batch frames) = Ok tt ->
      write_json h (json_path h jd) (batch frames) = Raise e ->
      run_detail (opening h jd ++ [Print (term_start_event h)]
                  ++ dispatch_effects h ++ report (batch frames)
                  ++ [ ToCsv (csv_path h) (columns (batch frames))
                         (rows (batch frames));
                       ToJson (json_path h jd) (rows (batch frames)) ],
                  Raise e).

End Detail.

(** ** Further vocabulary *)




(** A text of whitespace only. *)
Definition whitespace (pad : str) : Prop :=
  Forall (fun c => isspace c = true) pad.



Definition comma : N := 0x2C.

(** A site name as [_parse_sites] returns them: not empty, trimmed, and
    without comma. *)
Definition clean_site (s : str) : Prop :=
  s <> [] /\ strip s = s /\ comma ∉ s.

(** The keys of a dictionary, in order. *)
Definition keys (d : Json.dict) : list str := List.map fst d.

(** * Verification *)

(** ** Strings *)

Section StringFacts.

Local Ltac cmp :=
  repeat match goal with
    | |- context [?a <=? ?b] => destruct (N.leb_spec a b); try lia
    | |- context [?a =? ?b] => destruct (N.eqb_spec a b); try lia
    end.

Lemma isspace_low (c : N) : 0x21 <= c < 0x85 -> isspace c = false.
Proof. intros Hc. unfold isspace. cmp; reflexivity. Qed.

Lemma isspace_latin (c : N) : 0xA1 <= c < 0x1680 -> isspace c = false.
Proof. intros Hc. unfold isspace. cmp; reflexivity. Qed.

Lemma lower_cp_cases (c : N) :
  (lower_cp c = c) \/
  (lower_cp c = c + 0x20 /\ (0x41 <= c <= 0x5A \/ 0xC0 <= c <= 0xDE)).
Proof.
  unfold lower_cp.
  destruct (N.leb_spec 0x41 c), (N.leb_spec c 0x5A),
    (N.leb_spec 0xC0 c), (N.leb_spec c 0xDE), (N.eqb_spec c 0xD7);
    simpl; auto; right; split; auto; lia.
Qed.

Lemma isspace_lower_cp (c : N) : isspace (lower_cp c) = isspace c.
Proof.
  destruct (lower_cp_cases c) as [-> | [-> [Hc | Hc]]]; [done | |].
  - rewrite !isspace_low; [done | lia | lia].
  - rewrite !isspace_latin; [done | lia | lia].
Qed.




Lemma lstrip_lower (s : str) : lstrip (lower s) = lower (lstrip s).
Proof.
  induction s as [| c s IH]; [done |]. simpl.
  rewrite isspace_lower_cp. destruct (isspace c); done.
Qed.

Lemma rstrip_lower (s : str) : rstrip (lower s) = lower (rstrip s).
Proof.
  induction s as [| c s IH]; [done |]. simpl.
  fold (lower s). rewrite IH, isspace_lower_cp.
  destruct (rstrip s); simpl; [destruct (isspace c) |]; done.
Qed.

Lemma strip_lower (s : str) : strip (lower s) = lower (strip s).
Proof. unfold strip. by rewrite rstrip_lower, lstrip_lower. Qed.

Lemma starts_word_lower (s : str) : starts_word (lower s) = starts_word s.
Proof. destruct s; simpl; [done |]. by rewrite isspace_lower_cp. Qed.

Lemma cons_head_lower (c : N) (ws : list str) :
  List.map lower (cons_head c ws) = cons_head (lower_cp c) (List.map lower ws).
Proof. by destruct ws. Qed.

Lemma split_lower (s : str) : split (lower s) = List.map lower (split s).
Proof.
  induction s as [| c s IH]; [done |]. simpl. fold (lower s).
  rewrite isspace_lower_cp, starts_word_lower, IH.
  destruct (isspace c); [done |].
  destruct (starts_word s); [by rewrite cons_head_lower | done].
Qed.



Lemma split_words (s : str) : Forall is_word (split s).
Proof.
  induction s as [| c s IH]; simpl; [constructor |].
  destruct (isspace c) eqn:Hc; [done |].
  assert (Hone : is_word [c]).
  { split; [done | by repeat constructor]. }
  destruct (starts_word s); [| by constructor].
  destruct IH as [| w ws [Hne Hw] IH]; simpl; constructor; try done.
  split; [done | by constructor].
Qed.


Lemma join_cons (sep w : str) (ws : list str) :
  ws <> [] -> join sep (w :: ws) = w ++ sep ++ join sep ws.
Proof. by destruct ws. Qed.


Lemma join_nil_inv (sep : str) (ws : list str) :
  Forall is_word ws -> join sep ws = [] -> ws = [].
Proof.
  intros Hws. destruct Hws as [| w ws [Hne _] _]; [done |].
  destruct w; [done |]. by destruct ws.
Qed.











Lemma split_lstrip (s : str) : split (lstrip s) = split s.
Proof.
  induction s as [| c s IH]; [done |]. simpl.
  destruct (isspace c) eqn:Hc; [done |]. simpl. by rewrite Hc.
Qed.

Lemma starts_word_rstrip (s : str) : starts_word (rstrip s) = starts_word s.
Proof.
  destruct s as [| c s]; [done |]. simpl.
  destruct (rstrip s); [| done]. by destruct (isspace c) eqn:Hc; simpl; rewrite ?Hc.
Qed.

Lemma split_rstrip (s : str) : split (rstrip s) = split s.
Proof.
  induction s as [| c s IH]; [done |]. simpl.
  pose proof (starts_word_rstrip s) as Hs.
  destruct (rstrip s) as [| d r] eqn:E.
  - simpl in Hs. rewrite <- Hs, <- IH.
    destruct (isspace c) eqn:Hc; simpl; by rewrite ?Hc.
  - change (split (c :: d :: r))
      with (if isspace c then split (d :: r)
            else if starts_word (d :: r) then cons_head c (split (d :: r))
                 else [c] :: split (d :: r)).
    by rewrite Hs, IH.
Qed.

Lemma split_strip (s : str) : split (strip s) = split s.
Proof. unfold strip. by rewrite split_lstrip, split_rstrip. Qed.




End StringFacts.

(** ** Location normalizer *)

Section Normalizer.

Lemma normalize_canon (value : str) :
  _normalize_country_token value = alias_resolve (canon value).
Proof. reflexivity. Qed.



Lemma alias_values (k v : str) :
  COUNTRY_ALIASES !! k = Some v ->
  v ∈ [u "united kingdom"; u "united states"; u "turkey"; u "czechia"].
Proof.
  intros H. apply elem_of_list_to_map_2 in H.
  repeat (apply elem_of_cons in H as [H | H];
          [injection H as _ ->; vm_compute; set_solver |]).
  by apply elem_of_nil in H.
Qed.


Lemma normalize_blank (value : str) :
  blank value -> _normalize_country_token value = [].
Proof. unfold blank, _normalize_country_token. by intros ->. Qed.



(** C7.  [_is_country_level_location] holds exactly when neither text is
    blank and both normalize to the same token; a blank text on either
    side gives [false]. *)
Theorem is_country_level_iff :
  (forall location country : str,
     _is_country_level_location location country = true
     <-> ~ blank location /\ ~ blank country
         /\ _normalize_country_token location
            = _normalize_country_token country)
  /\ _is_country_level_location (u "United Kingdom") (u "UK") = true
  /\ _is_country_level_location (u "Manchester") (u "UK") = false
  /\ (forall location country : str,
        blank location \/ blank country ->
        _is_country_level_location location country = false).
Proof.
  assert (Hiff : forall location country : str,
     _is_country_level_location location country = true
     <-> ~ blank location /\ ~ blank country
         /\ _normalize_country_token location
            = _normalize_country_token country).
  { intros location country. unfold _is_country_level_location, blank, eqb.
    destruct (strip location), (strip country); simpl;
      rewrite ?bool_decide_eq_true; intuition congruence. }
  split; [exact Hiff |]. split; [by vm_compute |]. split; [by vm_compute |].
  intros location country Hb.
  destruct (_is_country_level_location location country) eqn:E; [| done].
  apply Hiff in E. tauto.
Qed.

Lemma is_country_level_iff_witness :
  _is_country_level_location (u "  ") (u "UK") = false.
Proof.
  apply (proj2 (proj2 (proj2 is_country_level_iff))).
  left. reflexivity.
Defined.

(** C10.  The city lookup reads the location only when the country
    token is the empty string.  A country token of whitespace alone
    counts as present, normalizes to the empty key, and finds no city,
    whatever the location. *)
Theorem city_fallback_blank_country_token :
  (forall country location : str,
     country <> [] ->
     _glassdoor_city_for_country country location
     = GLASSDOOR_COUNTRY_TO_CITY !! _normalize_country_token country)
  /\ (forall location : str,
        _glassdoor_city_for_country [] location
        = GLASSDOOR_COUNTRY_TO_CITY !! _normalize_country_token location)
  /\ (forall country location : str,
        country <> [] -> blank country ->
        _normalize_country_token country = []
        /\ _glassdoor_city_for_country country location = None)
  /\ _glassdoor_city_for_country (u " ") (u "United Kingdom") = None
  /\ _glassdoor_city_for_country (u "") (u "United Kingdom")
     = Some (u "London").
Proof.
  split; [| split; [| split; [| by vm_compute]]].
  - intros country location Hne. unfold _glassdoor_city_for_country.
    by destruct country.
  - done.
  - intros country location Hne Hb. split; [by apply normalize_blank |].
    unfold _glassdoor_city_for_country.
    destruct country; [done |]. simpl truthy. cbv iota zeta.
    by rewrite normalize_blank.
Qed.

Lemma city_fallback_blank_country_token_witness :
  _normalize_country_token [0x20; 0x09] = []
  /\ _glassdoor_city_for_country [0x20; 0x09] (u "France") = None.
Proof.
  apply (proj1 (proj2 (proj2 city_fallback_blank_country_token))).
  - discriminate.
  - reflexivity.
Defined.

End Normalizer.

(** ** Configuration resolver *)

Section ResolverFacts.

Variable h : Host.

Lemma int_raises_ValueError (value : str) (e : exn) :
  PyInt.int value = Raise e -> e = ValueError.
Proof. unfold PyInt.int. case_match; congruence. Qed.

Lemma env_int_total (name : str) (default : Z) :
  exists z, _env_int h name default = Ok z.
Proof.
  unfold _env_int. destruct (getenv h name) as [value |]; [| by eauto].
  destruct (eqb (strip value) (u "")); [by eauto |].
  destruct (PyInt.int value) as [z | e] eqn:E; simpl; [by eauto |].
  apply int_raises_ValueError in E as ->. simpl. by eauto.
Qed.

Lemma env_int_ok (name : str) (default : Z) :
  _env_int h name default = Ok (int_setting h name default).
Proof.
  unfold int_setting. by destruct (env_int_total name default) as [z ->].
Qed.

Lemma env_str_truthy (name default : str) :
  truthy default && truthy (strip default) = true ->
  truthy (_env_str h name default)
  && truthy (strip (_env_str h name default)) = true.
Proof.
  intros Hd. unfold _env_str. destruct (getenv h name) as [value |]; [| done].
  by destruct (truthy value && truthy (strip value)) eqn:E.
Qed.

End ResolverFacts.

(** C8.  An integer setting never fails the run: an absent or blank
    variable gives the default, and so does a value [int] rejects; with
    ["abc"] as the results wanted the setting is the default 200. *)
Theorem env_int_lenient_default (h : Host) (name : str) (default : Z) :
  (exists z, _env_int h name default = Ok z)
  /\ (getenv h name = None -> _env_int h name default = Ok default)
  /\ (forall value, getenv h name = Some value -> blank value ->
       _env_int h name default = Ok default)
  /\ (forall value e, getenv h name = Some value ->
       PyInt.int value = Raise e -> _env_int h name default = Ok default)
  /\ (getenv h (u "JOBSPY_RESULTS_WANTED") = Some (u "abc") ->
       _env_int h (u "JOBSPY_RESULTS_WANTED") 200 = Ok 200%Z).
Proof.
  split; [apply env_int_total |]. unfold _env_int, blank.
  split; [by intros -> |]. split; [by intros value -> -> |].
  split; [| by intros ->].
  intros value e -> E. destruct (eqb (strip value) (u "")); [done |].
  rewrite E. by rewrite (int_raises_ValueError _ _ E).
Qed.

Lemma env_int_lenient_default_witness :
  _env_int (sample_host [(u "JOBSPY_RESULTS_WANTED", u "abc")] sample_fetch)
    (u "JOBSPY_RESULTS_WANTED") 200 = Ok 200%Z.
Proof.
  apply (proj2 (proj2 (proj2 (proj2
    (env_int_lenient_default
       (sample_host [(u "JOBSPY_RESULTS_WANTED", u "abc")] sample_fetch)
       (u "JOBSPY_RESULTS_WANTED") 200))))).
  reflexivity.
Defined.

(** ** Runs of [main] *)

Section MonadFacts.

Context {A B : Type}.

Lemma bind_ret (a : A) (f : A -> M B) : bind (ret a) f = f a.
Proof. unfold bind, ret. by destruct (f a). Qed.

Lemma bind_lift_ok (a : A) (f : A -> M B) : bind (lift (Ok a)) f = f a.
Proof. apply bind_ret. Qed.

Lemma bind_lift_raise (e : exn) (f : A -> M B) :
  bind (lift (Raise e)) f = ([], Raise e).
Proof. done. Qed.

Lemma bind_perform_ok (e : effect) (a : A) (f : A -> M B) :
  bind (perform e (Ok a)) f = (e :: trace (f a), outcome (f a)).
Proof. unfold bind, perform, trace, outcome. by destruct (f a). Qed.

Lemma bind_perform_raise (e : effect) (x : exn) (f : A -> M B) :
  bind (perform e (Raise x)) f = ([e], Raise x).
Proof. done. Qed.

End MonadFacts.

Lemma bind_pair {A B} (t : list effect) (a : A) (f : A -> M B) :
  bind (t, Ok a) f = (t ++ trace (f a), outcome (f a)).
Proof. unfold bind, trace, outcome. by destruct (f a). Qed.

Lemma bind_print {B} (text : str) (f : unit -> M B) :
  bind (print text) f = (Print text :: trace (f tt), outcome (f tt)).
Proof. apply bind_perform_ok. Qed.

Lemma bind_assoc {A B C} (m : M A) (f : A -> M B) (g : B -> M C) :
  bind (bind m f) g = bind m (fun a => bind (f a) g).
Proof.
  destruct m as [t [a | e]]; simpl; [| done].
  destruct (f a) as [t' [b | e]]; simpl; [| done].
  destruct (g b) as [t'' r]. by rewrite app_assoc.
Qed.

Lemma pair_trace_outcome {A} (m : M A) : (trace m, outcome m) = m.
Proof. by destruct m. Qed.

Section MainFacts.

Variable h : Host.

Lemma city_truthy (key city : str) :
  GLASSDOOR_COUNTRY_TO_CITY !! key = Some city ->
  truthy city = true /\ truthy (strip city) = true.
Proof.
  intros H. apply elem_of_list_to_map_2 in H.
  repeat (apply elem_of_cons in H as [H | H];
          [injection H as _ ->; by vm_compute |]).
  by apply elem_of_nil in H.
Qed.

Lemma requested_location_truthy :
  truthy (requested_location h) && truthy (strip (requested_location h)) = true.
Proof. by apply env_str_truthy. Qed.

Lemma effective_location_truthy :
  truthy (effective_location h) && truthy (strip (effective_location h)) = true.
Proof.
  unfold effective_location.
  destruct (_is_country_level_location _ _);
    [| apply requested_location_truthy].
  destruct (_glassdoor_city_for_country _ _) as [city |] eqn:E;
    [| apply requested_location_truthy].
  apply city_truthy in E as [-> ->]. done.
Qed.

Lemma scrape_for_sites_request (sites : list str) (loc : str) :
  truthy loc && truthy (strip loc) = true ->
  _scrape_for_sites h sites (requested_term h) (Some loc)
    (int_setting h (u "JOBSPY_RESULTS_WANTED") 200)
    (int_setting h (u "JOBSPY_HOURS_OLD") 72) (requested_country h)
    (_env_bool h (u "JOBSPY_LINKEDIN_FETCH_DESCRIPTION") true)
    (_env_bool h (u "JOBSPY_IS_REMOTE") false)
  = perform (Scrape (request h sites loc)) (scrape_jobs h (request h sites loc)).
Proof. intros Hl. unfold _scrape_for_sites. by rewrite Hl. Qed.

(** The block of [main] that settles the location of the
    city-granularity group. *)
Lemma glassdoor_location_block :
  (if _is_country_level_location (requested_location h) (requested_country h)
   then
     match _glassdoor_city_for_country (requested_country h)
             (requested_location h) with
     | Some city =>
         if truthy city then
           print (u "jobspy: Glassdoor location matched country; using city fallback ("
                    ++ city ++ u ")") ;;
           ret city
         else
           print (u "jobspy: Glassdoor location matched country; keeping original location") ;;
           ret (requested_location h)
     | None =>
         print (u "jobspy: Glassdoor location matched country; keeping original location") ;;
         ret (requested_location h)
     end
   else ret (requested_location h))
  = (fallback_notice h, Ok (effective_location h)).
Proof.
  unfold fallback_notice, effective_location.
  destruct (_is_country_level_location _ _); [| done].
  destruct (_glassdoor_city_for_country _ _) as [city |] eqn:E; [| done].
  apply city_truthy in E as [-> _]. done.
Qed.

Lemma aggregate_batch (frames : list DataFrame) :
  (if nonempty frames then lift (pd.concat frames)
   else ret pd.DataFrame_empty)
  = ret (batch frames).
Proof. by destruct frames. Qed.

Lemma emit_term_start :
  _emit_progress (u "term_start")
    [ (u "termIndex", JInt (int_setting h (u "JOBSPY_TERM_INDEX") 1));
      (u "termTotal", JInt (int_setting h (u "JOBSPY_TERM_TOTAL") 1));
      (u "searchTerm", JStr (requested_term h)) ]
  = print (term_start_event h).
Proof. reflexivity. Qed.

Lemma emit_term_complete (n : Z) :
  _emit_progress (u "term_complete")
    [ (u "termIndex", JInt (int_setting h (u "JOBSPY_TERM_INDEX") 1));
      (u "termTotal", JInt (int_setting h (u "JOBSPY_TERM_TOTAL") 1));
      (u "searchTerm", JStr (requested_term h));
      (u "jobsFoundTerm", JInt n) ]
  = print (term_complete_event h n).
Proof. reflexivity. Qed.

Lemma scrapes_app (t1 t2 : list effect) :
  scrapes (t1 ++ t2) = scrapes t1 ++ scrapes t2.
Proof. apply omap_app. Qed.

Lemma scrapes_fallback_notice : scrapes (fallback_notice h) = [].
Proof.
  unfold fallback_notice. destruct (_is_country_level_location _ _); [| done].
  by destruct (_glassdoor_city_for_country _ _).
Qed.

Lemma run_returns_eq (json_default : str) (frames : list DataFrame)
    (t : list effect) :
  with_suffix h (csv_path h) (u ".json") = Ok json_default ->
  mkdir h (parent h (csv_path h)) = Ok tt ->
  mkdir h (parent h (json_path h json_default)) = Ok tt ->
  fetched h frames ->
  write_csv h (csv_path h) (batch frames) = Ok tt ->
  write_json h (json_path h json_default) (batch frames) = Ok tt ->
  t = success_trace h json_default frames ->
  run_of h (t, Ok 0%Z).
Proof. intros ? ? ? ? ? ? ->. by constructor. Qed.

Lemma scrapes_cons (e : effect) (t : list effect) :
  scrapes (e :: t)
  = match e with Scrape kw => [kw] | _ => [] end ++ scrapes t.
Proof. by destruct e. Qed.

Local Ltac plan_with Hg Hc :=
  unfold fetched, success_trace, dispatch_effects, dispatch_plan, city_group;
  rewrite ?Hg, ?Hc; cbn [nonempty app].

Local Ltac solve_fetched Hg Hc :=
  plan_with Hg Hc; repeat constructor; assumption.

Local Ltac solve_prefix Hg Hc :=
  plan_with Hg Hc;
  rewrite ?scrapes_cons, ?scrapes_app, ?scrapes_cons, ?scrapes_fallback_notice;
  cbn [app scrapes omap list_omap];
  repeat apply prefix_cons; apply prefix_nil.

Local Ltac fetch_fails jd Hf Hg Hc :=
  rewrite bind_perform_raise; cbn [trace outcome fst snd];
  apply run_raises;
  [ right; exists jd; split; [assumption |]; do 2 right; left;
    eexists; split; [| exact Hf]; plan_with Hg Hc; set_solver
  | solve_prefix Hg Hc ].

Local Ltac write_fails jd frs Hw Hg Hc :=
  rewrite bind_perform_raise; cbn [trace outcome fst snd];
  apply run_raises;
  [ right; exists jd; split; [assumption |]; do 3 right;
    exists frs; split; [solve_fetched Hg Hc | auto]
  | solve_prefix Hg Hc ].

Local Ltac export jd frs Hg Hc :=
  rewrite aggregate_batch, bind_ret, bind_print, emit_term_complete, bind_print;
  cbn [trace outcome fst snd];
  let Hw1 := fresh "Hw1" in
  let Hw2 := fresh "Hw2" in
  destruct (write_csv h (csv_path h) (batch frs)) as [[] | ?] eqn:Hw1;
  [ rewrite bind_perform_ok;
    destruct (write_json h (json_path h jd) (batch frs)) as [[] | ?] eqn:Hw2;
    [ rewrite bind_perform_ok; cbn [trace outcome fst snd ret];
      apply (run_returns_eq jd frs); try assumption;
      [ solve_fetched Hg Hc
      | plan_with Hg Hc; unfold opening, closing;
        rewrite <- ?app_assoc; reflexivity ]
    | write_fails jd frs Hw2 Hg Hc ]
  | write_fails jd frs Hw1 Hg Hc ].

Local Ltac city jd frs Hg Hc :=
  rewrite bind_assoc, bind_pair; cbn [trace outcome fst snd];
  rewrite bind_assoc, scrape_for_sites_request
    by apply effective_location_truthy;
  let Hf2 := fresh "Hf2" in
  let df2 := fresh "df2" in
  destruct (scrape_jobs h (request h [glassdoor] (effective_location h)))
    as [df2 | ?] eqn:Hf2;
  [ rewrite bind_perform_ok, bind_ret; cbn [trace outcome fst snd app];
    let frs' := eval cbn [app] in (frs ++ [df2]) in export jd frs' Hg Hc
  | fetch_fails jd Hf2 Hg Hc ].

Theorem main_run : run_of h (main h).
Proof.
  unfold main. rewrite !env_int_ok, !bind_lift_ok.
  fold (requested_sites h) (requested_term h) (requested_location h)
    (requested_country h) (csv_path h).
  rewrite emit_term_start, glassdoor_location_block.
  destruct (with_suffix h (csv_path h) (u ".json")) as [jd | e] eqn:Hjd.
  2: { rewrite bind_lift_raise.
       apply run_raises; [by left | apply prefix_nil]. }
  rewrite bind_lift_ok. fold (json_path h jd) (generic_group (requested_sites h)).
  destruct (mkdir h (parent h (csv_path h))) as [[] | e] eqn:Hm1.
  2: { rewrite bind_perform_raise.
       apply run_raises; [right; exists jd; auto | apply prefix_nil]. }
  rewrite bind_perform_ok.
  destruct (mkdir h (parent h (json_path h jd))) as [[] | e] eqn:Hm2.
  2: { rewrite bind_perform_raise. cbn [trace outcome fst snd].
       apply run_raises; [right; exists jd; auto | apply prefix_nil]. }
  rewrite bind_perform_ok, !bind_print. cbn [trace outcome fst snd].
  destruct (nonempty (generic_group (requested_sites h))) eqn:Hg.
  - rewrite bind_assoc, scrape_for_sites_request
      by apply requested_location_truthy.
    destruct (scrape_jobs h (request h (generic_group (requested_sites h)) (requested_location h)))
      as [df1 | e] eqn:Hf1.
    2: { destruct (bool_decide (glassdoor ∈ requested_sites h)) eqn:Hc;
           fetch_fails jd Hf1 Hg Hc. }
    rewrite bind_perform_ok, bind_ret. cbn [trace outcome fst snd app].
    destruct (bool_decide (glassdoor ∈ requested_sites h)) eqn:Hc.
    + city jd [df1] Hg Hc.
    + rewrite bind_ret. export jd [df1] Hg Hc.
  - rewrite bind_ret.
    destruct (bool_decide (glassdoor ∈ requested_sites h)) eqn:Hc.
    + city jd (@nil DataFrame) Hg Hc.
    + rewrite bind_ret. export jd (@nil DataFrame) Hg Hc.
Qed.

End MainFacts.

Section RunFacts.

Variable h : Host.

Lemma prints_app (t1 t2 : list effect) : prints (t1 ++ t2) = prints t1 ++ prints t2.
Proof. apply omap_app. Qed.

Lemma progress_events_app (t1 t2 : list effect) :
  progress_events (t1 ++ t2) = progress_events t1 ++ progress_events t2.
Proof. unfold progress_events. by rewrite prints_app, List.filter_app. Qed.

Lemma exports_app (t1 t2 : list effect) :
  exports (t1 ++ t2) = exports t1 ++ exports t2.
Proof. apply omap_app. Qed.

Lemma progress_fallback_notice : progress_events (fallback_notice h) = [].
Proof.
  unfold fallback_notice. destruct (_is_country_level_location _ _); [| done].
  by destruct (_glassdoor_city_for_country _ _).
Qed.

Lemma exports_fallback_notice : exports (fallback_notice h) = [].
Proof.
  unfold fallback_notice. destruct (_is_country_level_location _ _); [| done].
  by destruct (_glassdoor_city_for_country _ _).
Qed.

Lemma scrapes_dispatch_effects : scrapes (dispatch_effects h) = dispatch_plan h.
Proof.
  unfold dispatch_effects, dispatch_plan.
  destruct (nonempty (generic_group _)), (nonempty (city_group _));
    rewrite ?scrapes_app, ?scrapes_fallback_notice; done.
Qed.

Lemma progress_dispatch_effects : progress_events (dispatch_effects h) = [].
Proof.
  unfold dispatch_effects.
  destruct (nonempty (generic_group _)), (nonempty (city_group _));
    rewrite ?progress_events_app, ?progress_fallback_notice; done.
Qed.

Lemma exports_dispatch_effects : exports (dispatch_effects h) = [].
Proof.
  unfold dispatch_effects.
  destruct (nonempty (generic_group _)), (nonempty (city_group _));
    rewrite ?exports_app, ?exports_fallback_notice; done.
Qed.

Lemma scrapes_success_trace (jd : str) (frames : list DataFrame) :
  scrapes (success_trace h jd frames) = dispatch_plan h.
Proof.
  unfold success_trace. rewrite !scrapes_app, scrapes_dispatch_effects.
  transitivity ((dispatch_plan h ++ []) ++ []); [reflexivity |].
  by rewrite !app_nil_r.
Qed.

Lemma progress_success_trace (jd : str) (frames : list DataFrame) :
  progress_events (success_trace h jd frames)
  = [term_start_event h; term_complete_event h (pd.len (batch frames))].
Proof.
  unfold success_trace. rewrite !progress_events_app, progress_dispatch_effects.
  reflexivity.
Qed.

Lemma exports_success_trace (jd : str) (frames : list DataFrame) :
  exports (success_trace h jd frames)
  = [ (csv_path h, Some (columns (batch frames)), rows (batch frames));
      (json_path h jd, None, rows (batch frames)) ].
Proof.
  unfold success_trace. rewrite !exports_app, exports_dispatch_effects.
  reflexivity.
Qed.

Lemma main_returns (t : list effect) (status : Z) :
  main h = (t, Ok status) ->
  exists jd frames,
    with_suffix h (csv_path h) (u ".json") = Ok jd
    /\ fetched h frames
    /\ t = success_trace h jd frames
    /\ status = 0%Z.
Proof.
  intros E. pose proof (main_run h) as R. rewrite E in R.
  inversion R; subst. by eauto 10.
Qed.

Lemma main_scrapes_prefix : scrapes (trace (main h)) `prefix_of` dispatch_plan h.
Proof.
  pose proof (main_run h) as R. destruct (main h) as [t r].
  inversion R; subst; cbn [trace fst]; [| done].
  by rewrite scrapes_success_trace.
Qed.

Lemma answers_fetched :
  Forall (fun kw => exists df, scrape_jobs h kw = Ok df) (dispatch_plan h) ->
  exists frames, fetched h frames.
Proof.
  unfold fetched. induction 1 as [| kw plan [df Hdf] _ [frames IH]].
  - exists []. constructor.
  - exists (df :: frames). by constructor.
Qed.



End RunFacts.

(** ** Site dispatcher *)

Section Groups.

Variable sites : list str.

Lemma generic_group_spec (s : str) :
  s ∈ generic_group sites <-> s ∈ sites /\ s <> glassdoor.
Proof.
  unfold generic_group, eqb. rewrite !list_elem_of_In, List.filter_In.
  rewrite negb_true_iff, bool_decide_eq_false. done.
Qed.



End Groups.

Section PlanFacts.

Variable h : Host.

Lemma plan_groups :
  List.map site_name (dispatch_plan h)
  = List.filter nonempty
      [generic_group (requested_sites h); city_group (requested_sites h)].
Proof.
  unfold dispatch_plan. cbn [List.filter].
  by destruct (nonempty (generic_group _)), (nonempty (city_group _)).
Qed.



End PlanFacts.





(** ** Aggregation, progress and export *)





(** C4.  A run that returns has printed exactly two progress events:
    [term_start], before any fetch, and [term_complete], after every
    fetch, whose [jobsFoundTerm] is the number of listings of the batch
    written out. *)
Theorem progress_events_exactly_two (h : Host) (t : list effect) (status : Z) :
  main h = (t, Ok status) ->
  exists before between after batch_rows,
    t = before ++ [Print (term_start_event h)] ++ between
        ++ [Print (term_complete_event h (Z.of_nat (length batch_rows)))]
        ++ after
    /\ progress_events before = [] /\ scrapes before = []
    /\ progress_events between = []
    /\ progress_events after = [] /\ scrapes after = []
    /\ progress_events t
       = [ term_start_event h;
           term_complete_event h (Z.of_nat (length batch_rows)) ]
    /\ List.map snd (exports t) = [batch_rows; batch_rows].
Proof.
  intros E.
  destruct (main_returns h t status E) as (jd & frames & _ & _ & -> & _).
  exists (opening h jd),
    (dispatch_effects h
     ++ [Print (u "Found " ++ PyInt.repr (pd.len (batch frames)) ++ u " jobs")]),
    (closing h jd (batch frames)), (rows (batch frames)).
  split; [reflexivity |]. split; [reflexivity |]. split; [reflexivity |].
  split; [by rewrite progress_events_app, progress_dispatch_effects |].
  split; [reflexivity |]. split; [reflexivity |].
  split; [apply progress_success_trace |].
  by rewrite exports_success_trace.
Qed.

Lemma progress_events_exactly_two_witness :
  exists n,
    progress_events (trace (main (sample_host [] sample_fetch)))
    = [ term_start_event (sample_host [] sample_fetch);
        term_complete_event (sample_host [] sample_fetch) n ].
Proof.
  destruct (progress_events_exactly_two (sample_host [] sample_fetch)
              (trace (main (sample_host [] sample_fetch))) 0)
    as (before & between & after & batch_rows & _ & _ & _ & _ & _ & _ & H & _).
  - vm_compute. reflexivity.
  - exists (Z.of_nat (length batch_rows)). exact H.
Defined.

(** A blank sites variable asks for the default sites; commas alone ask
    for none. *)
Lemma blank_sites_variable (h : Host) (value : str) :
  getenv h (u "JOBSPY_SITES") = Some value -> blank value ->
  requested_sites h = [u "indeed"; u "linkedin"].
Proof.
  unfold requested_sites, _env_str, blank. intros -> ->.
  rewrite andb_false_r. by vm_compute.
Qed.



(** ** Concrete evaluations *)

Example strip_example : strip ([0x09] ++ u "  New  York " ++ [0xA0]) = u "New  York".
Proof. vm_compute. reflexivity. Qed.

Example split_example : split (u "  a  bc " ++ [0x3000] ++ u "d") = [u "a"; u "bc"; u "d"].
Proof. vm_compute. reflexivity. Qed.

Example split_on_example : split_on 0x2C (u "a,,b,") = [u "a"; u ""; u "b"; u ""].
Proof. vm_compute. reflexivity. Qed.

Example lower_example : lower (u "T" ++ [0xDC] ++ u "RKIYE") = u "t" ++ [u_umlaut] ++ u "rkiye".
Proof. vm_compute. reflexivity. Qed.

Example normalize_examples :
  _normalize_country_token (u "  UK ") = u "united kingdom"
  /\ _normalize_country_token (u "US") = u "united states"
  /\ _normalize_country_token (u "Czech   Republic") = u "czechia"
  /\ _normalize_country_token (u "T" ++ [0xDC] ++ u "rkiye") = u "turkey"
  /\ _normalize_country_token (u " New" ++ [0x3000; 0x09] ++ u "ZEALAND ")
     = u "new zealand"
  /\ _normalize_country_token (u "") = u "".
Proof. vm_compute. repeat split; reflexivity. Qed.

Example parse_sites_examples :
  _parse_sites (u " glassdoor , indeed,,Glassdoor")
  = [glassdoor; u "indeed"; u "Glassdoor"]
  /\ _parse_sites (u " , ") = [].
Proof. vm_compute. split; reflexivity. Qed.

Example int_examples :
  PyInt.int (u " -1_000 ") = Ok (-1000)%Z
  /\ PyInt.int (u "+007") = Ok 7%Z
  /\ PyInt.int (u "abc") = Raise ValueError
  /\ PyInt.int (u "1__0") = Raise ValueError
  /\ PyInt.int (u "12_") = Raise ValueError
  /\ PyInt.int (u "- 7") = Raise ValueError
  /\ PyInt.int (u "1.5") = Raise ValueError.
Proof. vm_compute. repeat split; reflexivity. Qed.

Example repr_examples :
  PyInt.repr 0 = u "0" /\ PyInt.repr 1000 = u "1000"
  /\ PyInt.repr (-1203) = u "-1203".
Proof. vm_compute. repeat split; reflexivity. Qed.

Example dumps_example :
  Json.dumps
    (dict_merge [(u "event", JStr (u "term_start"))]
       [(u "termIndex", JInt 1); (u "searchTerm", JStr (u "dev" ++ [0x0A; 0xE9; 0x1F600]))])
  = u "{" ++ dumps_str (u "event") ++ u ": " ++ dumps_str (u "term_start")
    ++ u ", " ++ dumps_str (u "termIndex") ++ u ": 1, "
    ++ dumps_str (u "searchTerm") ++ u ": "
    ++ [Json.quote] ++ u "dev\n\u00e9\ud83d\ude00" ++ [Json.quote] ++ u "}".
Proof. vm_compute. reflexivity. Qed.

Example env_bool_examples :
  _env_bool (sample_host [(u "X", u " YES ")] sample_fetch) (u "X") false = true
  /\ _env_bool (sample_host [(u "X", u "no")] sample_fetch) (u "X") true = false
  /\ _env_bool (sample_host [(u "X", u "  ")] sample_fetch) (u "X") true = true.
Proof. vm_compute. repeat split; reflexivity. Qed.

(** Sites [indeed,glassdoor] for the location [United Kingdom]: two
    fetches, the second for London, three listings in both files. *)
Example run_united_kingdom :
  let h :=
    sample_host
      [ (u "JOBSPY_SITES", u "glassdoor,indeed");
        (u "JOBSPY_LOCATION", u "United Kingdom");
        (u "JOBSPY_RESULTS_WANTED", u "abc") ] sample_fetch in
  outcome (main h) = Ok 0%Z
  /\ List.map site_name (scrapes (trace (main h))) = [[u "indeed"]; [glassdoor]]
  /\ List.map location (scrapes (trace (main h)))
     = [Some (u "United Kingdom"); Some (u "London")]
  /\ List.map results_wanted (scrapes (trace (main h))) = [200%Z; 200%Z]
  /\ List.map (fun x => length x.2) (exports (trace (main h))) = [3%nat; 3%nat]
  /\ prints (trace (main h)) !! 2%nat
     = Some (u "jobspy: Glassdoor location matched country; using city fallback (London)")
  /\ prints (trace (main h)) !! 3%nat = Some (u "Found 3 jobs").
Proof. vm_compute. repeat split; reflexivity. Qed.

(** A fetch that raises ends the run with its exception; nothing is
    written. *)
Example run_fetch_raises :
  let h := sample_host [] (fun _ => Raise Exception) in
  outcome (main h) = Raise Exception
  /\ exports (trace (main h)) = []
  /\ length (progress_events (trace (main h))) = 1%nat.
Proof. vm_compute. repeat split; reflexivity. Qed.

(** * Further properties *)

(** ** Whitespace and trimming *)

Section TrimFacts.

Lemma lstrip_pad (pad s : str) : whitespace pad -> lstrip (pad ++ s) = lstrip s.
Proof. induction 1 as [| c pad Hc _ IH]; [done |]. simpl. by rewrite Hc. Qed.

Lemma rstrip_whitespace (pad : str) : whitespace pad -> rstrip pad = [].
Proof. induction 1 as [| c pad Hc _ IH]; [done |]. simpl. by rewrite IH, Hc. Qed.

Lemma rstrip_pad (s pad : str) : whitespace pad -> rstrip (s ++ pad) = rstrip s.
Proof.
  intros Hp. induction s as [| c s IH]; simpl.
  - by apply rstrip_whitespace.
  - by rewrite IH.
Qed.

Lemma strip_cons_space (c : N) (s : str) :
  isspace c = true -> strip (c :: s) = strip s.
Proof.
  intros Hc. unfold strip. simpl. rewrite Hc.
  destruct (rstrip s); [done |]. simpl. by rewrite Hc.
Qed.

Lemma strip_pad (pad1 s pad2 : str) :
  whitespace pad1 -> whitespace pad2 -> strip (pad1 ++ s ++ pad2) = strip s.
Proof.
  intros H1 H2. induction H1 as [| c pad1 Hc _ IH].
  - unfold strip. simpl. by rewrite rstrip_pad.
  - simpl. by rewrite strip_cons_space.
Qed.

Lemma rstrip_cons_inv (c : N) (r : str) :
  rstrip (c :: r) = c :: r -> r = [] \/ (r <> [] /\ rstrip r = r).
Proof.
  simpl. destruct (rstrip r) as [| d r'] eqn:E.
  - destruct (isspace c); [done |]. intros [= <-]. by left.
  - intros [= <-]. by right.
Qed.

Lemma rstrip_idemp (s : str) : rstrip (rstrip s) = rstrip s.
Proof.
  induction s as [| c s IH]; [done |]. simpl.
  destruct (rstrip s) as [| d r] eqn:E.
  - destruct (isspace c) eqn:Hc; simpl; by rewrite ?Hc.
  - change (rstrip (c :: d :: r))
      with (match rstrip (d :: r) with
            | [] => if isspace c then [] else [c]
            | x => c :: x
            end).
    by rewrite IH.
Qed.

Lemma rstrip_lstrip (r : str) : rstrip r = r -> rstrip (lstrip r) = lstrip r.
Proof.
  induction r as [| c r IH]; [done |]. intros Hr. simpl.
  destruct (isspace c) eqn:Hc; [| done].
  apply rstrip_cons_inv in Hr as [-> | [_ Hr]]; [done | by apply IH].
Qed.

Lemma lstrip_idemp (s : str) : lstrip (lstrip s) = lstrip s.
Proof.
  induction s as [| c s IH]; [done |]. simpl.
  destruct (isspace c) eqn:Hc; [done |]. simpl. by rewrite Hc.
Qed.

Lemma strip_idemp (s : str) : strip (strip s) = strip s.
Proof.
  unfold strip.
  rewrite (rstrip_lstrip (rstrip s)) by apply rstrip_idemp.
  apply lstrip_idemp.
Qed.

Lemma lstrip_incl (s : str) (c : N) : c ∈ lstrip s -> c ∈ s.
Proof.
  induction s as [| d s IH]; [done |]. simpl.
  destruct (isspace d); [| done]. intros H. right. by apply IH.
Qed.

Lemma rstrip_incl (s : str) (c : N) : c ∈ rstrip s -> c ∈ s.
Proof.
  induction s as [| d s IH]; simpl; [done |].
  destruct (rstrip s) as [| e r] eqn:E.
  - destruct (isspace d); [by intros ?%elem_of_nil |].
    intros ->%list_elem_of_singleton. by left.
  - intros [-> | H]%elem_of_cons; [by left |]. right. by apply IH.
Qed.

Lemma strip_incl (s : str) (c : N) : c ∈ strip s -> c ∈ s.
Proof. intros H. by apply rstrip_incl, lstrip_incl. Qed.

Lemma split_nil_whitespace (s : str) : split s = [] <-> whitespace s.
Proof.
  unfold whitespace. induction s as [| c s IH]; simpl; [by split |].
  destruct (isspace c) eqn:Hc.
  - rewrite IH. split; [by constructor | by inversion 1].
  - split.
    + destruct (starts_word s); [| done]. by destruct (split s).
    + inversion 1; congruence.
Qed.

Lemma blank_whitespace (s : str) : blank s <-> whitespace s.
Proof.
  rewrite <- split_nil_whitespace, <- (split_strip s). unfold blank.
  split; [by intros -> |]. intros H.
  destruct (strip s) as [| c r] eqn:E; [done |]. exfalso.
  assert (Hc : isspace c = false).
  { unfold strip in E. destruct (rstrip s) as [| d t]; [done |].
    clear -E. induction (d :: t) as [| e l IH]; [done |]. simpl in E.
    destruct (isspace e) eqn:He; [by apply IH | congruence]. }
  simpl in H. rewrite Hc in H. destruct (starts_word r); [| done].
  by destruct (split r).
Qed.

End TrimFacts.

(** ** More on the location normalizer *)



(** X9.  Only a blank text normalizes to the empty token. *)
Theorem normalize_empty_iff_blank (x : str) :
  _normalize_country_token x = [] <-> blank x.
Proof.
  split; [| apply normalize_blank].
  rewrite normalize_canon. unfold alias_resolve.
  destruct (COUNTRY_ALIASES !! canon x) as [v |] eqn:E; simpl.
  - intros ->. apply alias_values in E.
    repeat (apply elem_of_cons in E as [E | E]; [by vm_compute in E |]).
    by apply elem_of_nil in E.
  - unfold canon. change (u " ") with space. intros H.
    apply join_nil_inv in H; [| apply split_words].
    rewrite split_lower, split_strip in H.
    apply blank_whitespace, split_nil_whitespace.
    by destruct (split x).
Qed.

Lemma normalize_empty_iff_blank_witness :
  _normalize_country_token [0x20; 0x3000; 0x0A] = [].
Proof.
  apply (proj2 (normalize_empty_iff_blank [0x20; 0x3000; 0x0A])).
  reflexivity.
Defined.

(** X10.  On texts that are not blank, [_is_country_level_location] is an
    equivalence: reflexive, symmetric and transitive. *)
Theorem is_country_level_equivalence :
  (forall a : str, ~ blank a -> _is_country_level_location a a = true)
  /\ (forall a b : str,
        _is_country_level_location a b = _is_country_level_location b a)
  /\ (forall a b c : str,
        _is_country_level_location a b = true ->
        _is_country_level_location b c = true ->
        _is_country_level_location a c = true).
Proof.
  assert (Hiff : forall a b : str,
     _is_country_level_location a b = true
     <-> ~ blank a /\ ~ blank b
         /\ _normalize_country_token a = _normalize_country_token b).
  { intros a b. unfold _is_country_level_location, blank, eqb.
    destruct (strip a), (strip b); simpl;
      rewrite ?bool_decide_eq_true; intuition congruence. }
  split; [| split].
  - intros a Ha. by apply Hiff.
  - intros a b.
    destruct (_is_country_level_location a b) eqn:E1,
      (_is_country_level_location b a) eqn:E2; try done.
    + apply Hiff in E1 as (? & ? & ?).
      assert (_is_country_level_location b a = true) by by apply Hiff.
      congruence.
    + apply Hiff in E2 as (? & ? & ?).
      assert (_is_country_level_location a b = true) by by apply Hiff.
      congruence.
  - intros a b c (Ha & _ & Hab)%Hiff (_ & Hc & Hbc)%Hiff.
    apply Hiff. repeat split; [done | done | congruence].
Qed.

Lemma is_country_level_equivalence_witness :
  _is_country_level_location (u "uk") (u "United  Kingdom") = true.
Proof.
  apply (proj2 (proj2 is_country_level_equivalence)
           (u "uk") (u " UK") (u "United  Kingdom"));
    vm_compute; reflexivity.
Defined.

(** X11.  Every key of the city table is its own normal form, so every entry
    can be reached: looked up under its key as country token, the table
    gives the entry's city, whatever the location. *)
Theorem city_table_reachable (key city : str) :
  GLASSDOOR_COUNTRY_TO_CITY !! key = Some city ->
  _normalize_country_token key = key
  /\ forall location : str,
       _glassdoor_city_for_country key location = Some city.
Proof.
  intros H. apply elem_of_list_to_map_2 in H.
  repeat (apply elem_of_cons in H as [H | H];
          [injection H as -> ->; split; [by vm_compute | by intros; vm_compute] |]).
  by apply elem_of_nil in H.
Qed.

Lemma city_table_reachable_witness :
  _normalize_country_token (u "hong kong") = u "hong kong"
  /\ forall location : str,
       _glassdoor_city_for_country (u "hong kong") location
       = Some (u "Hong Kong").
Proof.
  apply (city_table_reachable (u "hong kong") (u "Hong Kong")).
  vm_compute. reflexivity.
Defined.

(** X12.  When the location is country-level, it does not matter that the
    city is looked up under the country token: the location gives the
    same entry. *)
Theorem country_level_lookup_agrees (location country : str) :
  _is_country_level_location location country = true ->
  _glassdoor_city_for_country country location
  = GLASSDOOR_COUNTRY_TO_CITY !! _normalize_country_token location
  /\ _glassdoor_city_for_country country location
     = _glassdoor_city_for_country location country.
Proof.
  unfold _is_country_level_location, _glassdoor_city_for_country, eqb.
  destruct (strip location) as [| a l] eqn:El; [done |].
  destruct (strip country) as [| b c] eqn:Ec; [done |]. simpl.
  intros H%bool_decide_eq_true.
  assert (Hl : truthy location = true) by by destruct location.
  assert (Hc : truthy country = true) by by destruct country.
  by rewrite Hl, Hc, H.
Qed.

Lemma country_level_lookup_agrees_witness :
  _glassdoor_city_for_country (u "USA") (u "United States")
  = GLASSDOOR_COUNTRY_TO_CITY !! _normalize_country_token (u "United States")
  /\ _glassdoor_city_for_country (u "USA") (u "United States")
     = _glassdoor_city_for_country (u "United States") (u "USA").
Proof.
  apply country_level_lookup_agrees. vm_compute. reflexivity.
Defined.

(** ** More on the configuration resolver *)

Lemma truthy_strip (value : str) :
  truthy value && truthy (strip value) = true <-> ~ blank value.
Proof.
  unfold blank. destruct value as [| c s]; [by split|].
  cbn [truthy andb]. destruct (strip (c :: s)); by split.
Qed.

(** X1.  [_env_str] gives the text of the variable as it stands, untrimmed,
    unless the variable is absent or blank, and then the default; so a
    setting with a default that is not blank is never blank. *)
Theorem env_str_never_blank (h : Host) (name default : str) :
  (~ blank default -> ~ blank (_env_str h name default))
  /\ (forall value, getenv h name = Some value -> ~ blank value ->
      _env_str h name default = value)
  /\ (forall value, getenv h name = Some value -> blank value ->
      _env_str h name default = default)
  /\ (getenv h name = None -> _env_str h name default = default).
Proof.
  unfold _env_str. split; [| split; [| split]].
  - intros Hd. destruct (getenv h name) as [value |]; [| done].
    destruct (truthy value && truthy (strip value)) eqn:E; [| done].
    by apply truthy_strip.
  - intros value -> Hv. apply truthy_strip in Hv. by rewrite Hv.
  - intros value -> Hv.
    destruct (truthy value && truthy (strip value)) eqn:E; [| done].
    by apply truthy_strip in E.
  - by intros ->.
Qed.

Lemma env_str_never_blank_witness :
  _env_str (sample_host [(u "JOBSPY_LOCATION", u " Leeds ")] sample_fetch)
    (u "JOBSPY_LOCATION") (u "UK") = u " Leeds ".
Proof.
  apply (proj1 (proj2 (env_str_never_blank
    (sample_host [(u "JOBSPY_LOCATION", u " Leeds ")] sample_fetch)
    (u "JOBSPY_LOCATION") (u "UK")))).
  - reflexivity.
  - discriminate.
Defined.

(** X3.  A boolean variable that is not blank decides alone: the default
    plays no part, nor do whitespace around the text and letter case. *)
Theorem env_bool_insensitive (h h' : Host) (name : str) (d d' : bool)
    (value value' pad1 pad2 : str) :
  getenv h name = Some value ->
  getenv h' name = Some (pad1 ++ value' ++ pad2) ->
  whitespace pad1 -> whitespace pad2 ->
  lower value = lower value' ->
  ~ blank value ->
  _env_bool h name d = _env_bool h' name d'.
Proof.
  intros Hv Hv' H1 H2 Hl Hb. unfold _env_bool. rewrite Hv, Hv'.
  rewrite strip_pad by done.
  assert (E : lower (strip value) = lower (strip value')).
  { by rewrite <- !strip_lower, Hl. }
  assert (Hb' : strip value' <> []).
  { intros E'. rewrite E' in E. apply Hb. unfold blank.
    by destruct (strip value). }
  unfold eqb, blank in *. change (u "") with (@nil N).
  rewrite (bool_decide_eq_false_2 (strip value = [])) by exact Hb.
  rewrite (bool_decide_eq_false_2 (strip value' = [])) by exact Hb'.
  by rewrite E.
Qed.

Lemma env_bool_insensitive_witness :
  _env_bool (sample_host [(u "JOBSPY_IS_REMOTE", u "Yes")] sample_fetch)
    (u "JOBSPY_IS_REMOTE") false
  = _env_bool (sample_host [(u "JOBSPY_IS_REMOTE", u "  yES ")] sample_fetch)
      (u "JOBSPY_IS_REMOTE") true.
Proof.
  apply (env_bool_insensitive _ _ _ _ _ (u "Yes") (u "yES") (u "  ") (u " "));
    try reflexivity.
  - vm_compute. by repeat constructor.
  - vm_compute. by repeat constructor.
  - discriminate.
Defined.

(** ** The requested sites *)

Section SitesFacts.

Lemma split_on_no_sep (sep : N) (s : str) :
  Forall (fun w => sep ∉ w) (split_on sep s).
Proof.
  induction s as [| c s IH]; simpl.
  - repeat constructor. by intros ?%elem_of_nil.
  - destruct (N.eqb_spec c sep) as [-> | Hne].
    + constructor; [by intros ?%elem_of_nil | done].
    + destruct IH as [| w ws Hw Hws]; simpl.
      * repeat constructor. intros ->%list_elem_of_singleton. done.
      * constructor; [| done].
        intros [-> | H]%elem_of_cons; done.
Qed.

Lemma split_on_piece (sep : N) (w : str) : sep ∉ w -> split_on sep w = [w].
Proof.
  induction w as [| c w IH]; [done |]. intros Hw. simpl.
  destruct (N.eqb_spec c sep) as [-> | Hne]; [by destruct Hw; left |].
  rewrite IH; [done |]. intros H. apply Hw. by right.
Qed.

Lemma split_on_app (sep : N) (w t : str) :
  sep ∉ w -> split_on sep (w ++ sep :: t) = w :: split_on sep t.
Proof.
  induction w as [| c w IH]; intros Hw; simpl.
  - by rewrite N.eqb_refl.
  - destruct (N.eqb_spec c sep) as [-> | Hne]; [by destruct Hw; left |].
    rewrite IH; [done |]. intros H. apply Hw. by right.
Qed.

Lemma split_on_join (sep : N) (ws : list str) :
  ws <> [] -> Forall (fun w => sep ∉ w) ws ->
  split_on sep (join [sep] ws) = ws.
Proof.
  intros Hne Hws. induction Hws as [| w ws Hw Hws IH]; [done |].
  destruct ws as [| w' ws]; [by apply split_on_piece |].
  rewrite join_cons by done. cbn [app].
  rewrite split_on_app by done. by rewrite IH.
Qed.

Lemma whitespace_no_comma (pad : str) : whitespace pad -> comma ∉ pad.
Proof.
  induction 1 as [| c pad Hc _ IH]; [by intros ?%elem_of_nil |].
  intros [<- | H]%elem_of_cons; [by vm_compute in Hc | done].
Qed.

End SitesFacts.

(** X6.  Every site [_parse_sites] returns is a clean name: not empty, without
    whitespace at either end, and without comma. *)
Theorem parse_sites_clean (raw : str) : Forall clean_site (_parse_sites raw).
Proof.
  unfold _parse_sites. rewrite Forall_map.
  pose proof (split_on_no_sep 0x2C raw) as Hno.
  induction Hno as [| w ws Hw _ IH]; [constructor |].
  cbn [List.filter]. destruct (truthy (strip w)) eqn:E; [| done].
  constructor; [| done]. cbn. split; [| split].
  - by destruct (strip w).
  - apply strip_idemp.
  - intros H. by apply strip_incl in H.
Qed.

(** X7.  A round trip: clean names joined by commas, with any whitespace
    around each name, are parsed back to the same names in the same
    order. *)
Theorem parse_sites_join (items : list (str * str * str)) :
  Forall (fun item => whitespace item.1.1 /\ clean_site item.1.2
                      /\ whitespace item.2) items ->
  _parse_sites
    (join [comma] (List.map (fun item => item.1.1 ++ item.1.2 ++ item.2) items))
  = List.map (fun item => item.1.2) items.
Proof.
  intros Hitems. unfold _parse_sites.
  destruct items as [| item items]; [done |].
  rewrite split_on_join.
  - induction Hitems as [| [[p1 s] p2] l (H1 & (Hne & Hs & _) & H2) _ IH];
      [done |].
    cbn [fst snd] in H1, Hne, Hs, H2.
    cbn [List.map List.filter fst snd].
    rewrite strip_pad, Hs by done.
    destruct s; [done |]. cbn [truthy List.map].
    rewrite strip_pad, Hs by done. by rewrite IH.
  - done.
  - rewrite Forall_map. eapply Forall_impl; [exact Hitems |].
    intros [[p1 s] p2] (H1 & (_ & _ & Hs) & H2). cbn.
    rewrite !elem_of_app. intros [H | [H | H]]; [| done |];
      by apply whitespace_no_comma in H.
Qed.

Lemma parse_sites_join_witness :
  _parse_sites
    (join [comma]
       (List.map (fun item : str * str * str => item.1.1 ++ item.1.2 ++ item.2)
          [ (u " ", glassdoor, u ""); (u "", u "indeed", [0x09]) ]))
  = List.map (fun item : str * str * str => item.1.2)
      [ (u " ", glassdoor, u ""); (u "", u "indeed", [0x09]) ].
Proof.
  apply parse_sites_join.
  repeat constructor; try (by vm_compute); try discriminate;
    vm_compute; intros H; repeat (apply elem_of_cons in H as [H | H]; [discriminate |]);
    by apply elem_of_nil in H.
Defined.

(** ** The progress emitter *)

Section EmitterFacts.















Lemma dict_set_fresh (k : str) (v : Json.value) (d : Json.dict) :
  k ∉ keys d -> dict_set k v d = d ++ [(k, v)].
Proof.
  induction d as [| [k' v'] d IH]; [done |]. cbn. intros Hk.
  unfold eqb. rewrite bool_decide_eq_false_2.
  - rewrite IH; [done |]. intros H. apply Hk. by right.
  - intros ->. apply Hk. by left.
Qed.

Lemma dict_merge_fresh (d1 d2 : Json.dict) :
  NoDup (keys (d1 ++ d2)) -> dict_merge d1 d2 = d1 ++ d2.
Proof.
  unfold dict_merge. revert d1.
  induction d2 as [| [k v] d2 IH]; intros d1 Hnd; cbn.
  - by rewrite app_nil_r.
  - unfold keys in Hnd. rewrite List.map_app in Hnd. cbn in Hnd.
    apply NoDup_app in Hnd as (H1 & H12 & H2).
    rewrite dict_set_fresh.
    + rewrite IH; [by rewrite <- app_assoc |].
      unfold keys. rewrite !List.map_app. cbn. rewrite <- app_assoc. cbn.
      apply NoDup_app. split; [done |]. split; [done | done].
    + intros Hk. apply (H12 k Hk). by left.
Qed.

End EmitterFacts.


(** X5.  The document of an event has the event kind first and then the
    fields of the payload in the order given, when the payload names
    each field once and has none called [event]. *)
Theorem emit_progress_fields (event : str) (payload : Json.dict) :
  NoDup (keys payload) -> (u "event" ∉ keys payload) ->
  _emit_progress event payload
  = print (PROGRESS_PREFIX
           ++ Json.dumps ((u "event", JStr event) :: payload)).
Proof.
  intros Hnd Hev. unfold _emit_progress. cbv zeta.
  rewrite dict_merge_fresh; [done |]. cbn. by constructor.
Qed.

Lemma emit_progress_fields_witness :
  _emit_progress (u "term_start")
    [(u "termIndex", JInt 3); (u "searchTerm", JStr (u "dev"))]
  = print (PROGRESS_PREFIX
           ++ Json.dumps [ (u "event", JStr (u "term_start"));
                           (u "termIndex", JInt 3);
                           (u "searchTerm", JStr (u "dev")) ]).
Proof.
  apply emit_progress_fields.
  - repeat constructor; vm_compute; intros H;
      repeat (apply elem_of_cons in H as [H | H]; [discriminate |]);
      by apply elem_of_nil in H.
  - vm_compute. intros H.
    repeat (apply elem_of_cons in H as [H | H]; [discriminate |]).
    by apply elem_of_nil in H.
Defined.

(** ** One fetch *)



(** ** Every run of [main], step by step *)

Section MainDetail.

Variable h : Host.

Lemma generic_not_city (sites : list str) :
  bool_decide (generic_group sites = [glassdoor]) = false.
Proof.
  apply bool_decide_eq_false_2. intros E.
  assert (H : glassdoor ∈ generic_group sites) by (rewrite E; by left).
  apply generic_group_spec in H. tauto.
Qed.

Lemma fetch_effects_generic (place : str) (rest : list Kwargs) :
  fetch_effects h (request h (generic_group (requested_sites h)) place :: rest)
  = Scrape (request h (generic_group (requested_sites h)) place)
    :: fetch_effects h rest.
Proof.
  unfold fetch_effects. cbn [List.flat_map site_name request].
  by rewrite generic_not_city.
Qed.

Lemma fetch_effects_city (place : str) (rest : list Kwargs) :
  fetch_effects h (request h [glassdoor] place :: rest)
  = fallback_notice h ++ Scrape (request h [glassdoor] place)
    :: fetch_effects h rest.
Proof.
  unfold fetch_effects. cbn [List.flat_map site_name request].
  rewrite bool_decide_eq_true_2 by done. by rewrite <- app_assoc.
Qed.

Lemma dispatch_effects_fetch : dispatch_effects h = fetch_effects h (dispatch_plan h).
Proof.
  unfold dispatch_effects, dispatch_plan, city_group.
  destruct (nonempty (generic_group _)),
    (bool_decide (glassdoor ∈ requested_sites h));
    cbn [nonempty app];
    rewrite ?fetch_effects_generic, ?fetch_effects_city; done.
Qed.

Lemma detail_returns_eq (jd : str) (frames : list DataFrame) (t : list effect) :
  with_suffix h (csv_path h) (u ".json") = Ok jd ->
  mkdir h (parent h (csv_path h)) = Ok tt ->
  mkdir h (parent h (json_path h jd)) = Ok tt ->
  fetched h frames ->
  write_csv h (csv_path h) (batch frames) = Ok tt ->
  write_json h (json_path h jd) (batch frames) = Ok tt ->
  t = success_trace h jd frames ->
  run_detail h (t, Ok 0%Z).
Proof. intros ? ? ? ? ? ? ->. by constructor. Qed.

Lemma detail_fetch_eq (jd : str) (done : list Kwargs) (frames : list DataFrame)
    (kw : Kwargs) (rest : list Kwargs) (e : exn) (t : list effect) :
  with_suffix h (csv_path h) (u ".json") = Ok jd ->
  mkdir h (parent h (csv_path h)) = Ok tt ->
  mkdir h (parent h (json_path h jd)) = Ok tt ->
  dispatch_plan h = done ++ kw :: rest ->
  answered h done frames ->
  scrape_jobs h kw = Raise e ->
  t = opening h jd ++ [Print (term_start_event h)]
      ++ fetch_effects h (done ++ [kw]) ->
  run_detail h (t, Raise e).
Proof. intros ? ? ? ? ? ? ->. by econstructor. Qed.

Lemma detail_write_csv_eq (jd : str) (frames : list DataFrame) (e : exn)
    (t : list effect) :
  with_suffix h (csv_path h) (u ".json") = Ok jd ->
  mkdir h (parent h (csv_path h)) = Ok tt ->
  mkdir h (parent h (json_path h jd)) = Ok tt ->
  fetched h frames ->
  write_csv h (csv_path h) (batch frames) = Raise e ->
  t = opening h jd ++ [Print (term_start_event h)]
      ++ dispatch_effects h ++ report h (batch frames)
      ++ [ToCsv (csv_path h) (columns (batch frames)) (rows (batch frames))] ->
  run_detail h (t, Raise e).
Proof. intros ? ? ? ? ? ->. by constructor. Qed.

Lemma detail_write_json_eq (jd : str) (frames : list DataFrame) (e : exn)
    (t : list effect) :
  with_suffix h (csv_path h) (u ".json") = Ok jd ->
  mkdir h (parent h (csv_path h)) = Ok tt ->
  mkdir h (parent h (json_path h jd)) = Ok tt ->
  fetched h frames ->
  write_csv h (csv_path h) (batch frames) = Ok tt ->
  write_json h (json_path h jd) (batch frames) = Raise e ->
  t = opening h jd ++ [Print (term_start_event h)]
      ++ dispatch_effects h ++ report h (batch frames)
      ++ [ ToCsv (csv_path h) (columns (batch frames)) (rows (batch frames));
           ToJson (json_path h jd) (rows (batch frames)) ] ->
  run_detail h (t, Raise e).
Proof. intros ? ? ? ? ? ? ->. by constructor. Qed.

Local Ltac unfold_plan Hg Hc :=
  unfold fetched, answered, success_trace, dispatch_effects, dispatch_plan,
    city_group, opening, closing, report;
  rewrite ?Hg, ?Hc; cbn [nonempty app].

Local Ltac same_trace Hg Hc :=
  unfold_plan Hg Hc;
  rewrite ?fetch_effects_generic, ?fetch_effects_city;
  cbn [fetch_effects List.flat_map app];
  rewrite <- ?app_assoc; reflexivity.

Local Ltac all_answered Hg Hc :=
  unfold_plan Hg Hc; repeat constructor; assumption.

Local Ltac fetch_raises jd dn frs Hf Hg Hc :=
  rewrite bind_perform_raise; cbn [trace outcome fst snd];
  eapply (detail_fetch_eq jd dn frs); try eassumption;
  [ unfold_plan Hg Hc; reflexivity
  | all_answered Hg Hc
  | same_trace Hg Hc ].

Local Ltac write_raises lem jd frs Hg Hc :=
  rewrite bind_perform_raise; cbn [trace outcome fst snd];
  eapply (lem jd frs); try eassumption;
  [ all_answered Hg Hc | same_trace Hg Hc ].

Local Ltac export_detail jd frs Hg Hc :=
  rewrite aggregate_batch, bind_ret, bind_print, emit_term_complete, bind_print;
  cbn [trace outcome fst snd];
  let Hw1 := fresh "Hw1" in
  let Hw2 := fresh "Hw2" in
  destruct (write_csv h (csv_path h) (batch frs)) as [[] | ?] eqn:Hw1;
  [ rewrite bind_perform_ok;
    destruct (write_json h (json_path h jd) (batch frs)) as [[] | ?] eqn:Hw2;
    [ rewrite bind_perform_ok; cbn [trace outcome fst snd ret];
      apply (detail_returns_eq jd frs); try assumption;
      [ all_answered Hg Hc | same_trace Hg Hc ]
    | write_raises detail_write_json_eq jd frs Hg Hc ]
  | write_raises detail_write_csv_eq jd frs Hg Hc ].

Local Ltac city_detail jd dn frs Hg Hc :=
  rewrite bind_assoc, bind_pair; cbn [trace outcome fst snd];
  rewrite bind_assoc, scrape_for_sites_request
    by apply effective_location_truthy;
  let Hf2 := fresh "Hf2" in
  let df2 := fresh "df2" in
  destruct (scrape_jobs h (request h [glassdoor] (effective_location h)))
    as [df2 | ?] eqn:Hf2;
  [ rewrite bind_perform_ok, bind_ret; cbn [trace outcome fst snd app];
    let frs' := eval cbn [app] in (frs ++ [df2]) in
    export_detail jd frs' Hg Hc
  | fetch_raises jd dn frs Hf2 Hg Hc ].

Theorem main_detail : run_detail h (main h).
Proof.
  unfold main. rewrite !env_int_ok, !bind_lift_ok.
  fold (requested_sites h) (requested_term h) (requested_location h)
    (requested_country h) (csv_path h).
  rewrite emit_term_start, glassdoor_location_block.
  destruct (with_suffix h (csv_path h) (u ".json")) as [jd | e] eqn:Hjd.
  2: { rewrite bind_lift_raise. by constructor. }
  rewrite bind_lift_ok.
  fold (json_path h jd) (generic_group (requested_sites h)).
  destruct (mkdir h (parent h (csv_path h))) as [[] | e] eqn:Hm1.
  2: { rewrite bind_perform_raise. by econstructor. }
  rewrite bind_perform_ok.
  destruct (mkdir h (parent h (json_path h jd))) as [[] | e] eqn:Hm2.
  2: { rewrite bind_perform_raise. cbn [trace outcome fst snd].
       by econstructor. }
  rewrite bind_perform_ok, !bind_print. cbn [trace outcome fst snd].
  destruct (nonempty (generic_group (requested_sites h))) eqn:Hg.
  - rewrite bind_assoc, scrape_for_sites_request
      by apply requested_location_truthy.
    destruct (scrape_jobs h
                (request h (generic_group (requested_sites h))
                   (requested_location h)))
      as [df1 | e] eqn:Hf1.
    2: { destruct (bool_decide (glassdoor ∈ requested_sites h)) eqn:Hc;
           fetch_raises jd (@nil Kwargs) (@nil DataFrame) Hf1 Hg Hc. }
    rewrite bind_perform_ok, bind_ret. cbn [trace outcome fst snd app].
    destruct (bool_decide (glassdoor ∈ requested_sites h)) eqn:Hc.
    + city_detail jd
        [request h (generic_group (requested_sites h)) (requested_location h)]
        [df1] Hg Hc.
    + rewrite bind_ret. export_detail jd [df1] Hg Hc.
  - rewrite bind_ret.
    destruct (bool_decide (glassdoor ∈ requested_sites h)) eqn:Hc.
    + city_detail jd (@nil Kwargs) (@nil DataFrame) Hg Hc.
    + rewrite bind_ret. export_detail jd (@nil DataFrame) Hg Hc.
Qed.

End MainDetail.

Section DetailFacts.

Variable h : Host.


Lemma exports_fetch_effects (plan : list Kwargs) :
  exports (fetch_effects h plan) = [].
Proof.
  unfold fetch_effects. induction plan as [| kw plan IH]; [done |].
  cbn [List.flat_map]. rewrite !exports_app, IH.
  destruct (bool_decide _); by rewrite ?exports_fallback_notice.
Qed.

Lemma progress_fetch_effects (plan : list Kwargs) :
  progress_events (fetch_effects h plan) = [].
Proof.
  unfold fetch_effects. induction plan as [| kw plan IH]; [done |].
  cbn [List.flat_map]. rewrite !progress_events_app, IH.
  destruct (bool_decide _); by rewrite ?progress_fallback_notice.
Qed.

Lemma fetched_answers (frames : list DataFrame) (kw : Kwargs) :
  fetched h frames -> kw ∈ dispatch_plan h ->
  exists df, scrape_jobs h kw = Ok df.
Proof.
  unfold fetched. induction 1 as [| kw' df plan frames Hdf _ IH].
  - by intros ?%elem_of_nil.
  - intros [-> | Hin]%elem_of_cons; [by eauto | by apply IH].
Qed.


End DetailFacts.

(** X14.  The requests of a run all carry the settings resolved from the
    environment, the same for both groups, and a location that is not
    blank; there are two fetches at most. *)
Theorem every_fetch_carries_settings (h : Host) (kw : Kwargs) :
  kw ∈ scrapes (trace (main h)) ->
  search_term kw = requested_term h
  /\ results_wanted kw = int_setting h (u "JOBSPY_RESULTS_WANTED") 200
  /\ hours_old kw = int_setting h (u "JOBSPY_HOURS_OLD") 72
  /\ country_indeed kw = requested_country h
  /\ linkedin_fetch_description kw
     = _env_bool h (u "JOBSPY_LINKEDIN_FETCH_DESCRIPTION") true
  /\ is_remote kw = _env_bool h (u "JOBSPY_IS_REMOTE") false
  /\ site_name kw <> []
  /\ (exists place, location kw = Some place /\ ~ blank place)
  /\ (length (scrapes (trace (main h))) <= 2)%nat.
Proof.
  intros Hin. pose proof (main_scrapes_prefix h) as Hpre.
  assert (Hlen : (length (scrapes (trace (main h))) <= 2)%nat).
  { pose proof (prefix_length _ _ Hpre) as Hl. etrans; [exact Hl |].
    unfold dispatch_plan.
    destruct (nonempty (generic_group _)), (nonempty (city_group _));
      cbn; lia. }
  eapply elem_of_prefix in Hin; [| exact Hpre]. clear Hpre.
  unfold dispatch_plan in Hin. apply elem_of_app in Hin as [Hin | Hin].
  - destruct (nonempty (generic_group _)) eqn:Hg;
      [| by apply elem_of_nil in Hin].
    apply list_elem_of_singleton in Hin as ->. cbn.
    repeat (split; [done |]). split; [by destruct (generic_group _) |].
    split; [| done]. eexists. split; [done |].
    apply truthy_strip, requested_location_truthy.
  - destruct (nonempty (city_group _)) eqn:Hc;
      [| by apply elem_of_nil in Hin].
    apply list_elem_of_singleton in Hin as ->. cbn.
    repeat (split; [done |]). split; [by destruct (city_group _) |].
    split; [| done]. eexists. split; [done |].
    apply truthy_strip, effective_location_truthy.
Qed.

Lemma every_fetch_carries_settings_witness :
  results_wanted
    (request (sample_host [(u "JOBSPY_RESULTS_WANTED", u "25")] sample_fetch)
       [u "indeed"; u "linkedin"] (u "UK"))
  = int_setting (sample_host [(u "JOBSPY_RESULTS_WANTED", u "25")] sample_fetch)
      (u "JOBSPY_RESULTS_WANTED") 200.
Proof.
  refine (proj1 (proj2 (every_fetch_carries_settings
    (sample_host [(u "JOBSPY_RESULTS_WANTED", u "25")] sample_fetch)
    (request (sample_host [(u "JOBSPY_RESULTS_WANTED", u "25")] sample_fetch)
       [u "indeed"; u "linkedin"] (u "UK")) _))).
  vm_compute. left.
Defined.

(** X16.  In every run, returning or not, the progress events printed are a
    beginning of [term_start], [term_complete]: nothing but these two,
    never the second without the first, and the second only once every
    group has been fetched, with the size of the batch. *)
Theorem progress_events_any_run (h : Host) :
  progress_events (trace (main h)) = []
  \/ progress_events (trace (main h)) = [term_start_event h]
  \/ exists frames,
       fetched h frames
       /\ progress_events (trace (main h))
          = [ term_start_event h;
              term_complete_event h (pd.len (batch frames)) ].
Proof.
  destruct (main_detail h)
    as [jd frames ? ? ? Hfr | | | | jd done frames kw rest e
       | jd frames e ? ? ? Hfr | jd frames e ? ? ? Hfr];
    cbn [trace fst].
  - right. right. exists frames. split; [done |]. apply progress_success_trace.
  - by left.
  - by left.
  - by left.
  - right. left. rewrite !progress_events_app, progress_fetch_effects.
    reflexivity.
  - right. right. exists frames. split; [done |].
    rewrite !progress_events_app, progress_dispatch_effects. reflexivity.
  - right. right. exists frames. split; [done |].
    rewrite !progress_events_app, progress_dispatch_effects. reflexivity.
Qed.

(** X17.  When a planned fetch raises, the run raises, writes no file and
    never reports completion. *)
Theorem fetch_failure_leaves_no_output (h : Host) (kw : Kwargs) (e : exn) :
  kw ∈ dispatch_plan h ->
  scrape_jobs h kw = Raise e ->
  (exists e', outcome (main h) = Raise e')
  /\ exports (trace (main h)) = []
  /\ (progress_events (trace (main h)) = []
      \/ progress_events (trace (main h)) = [term_start_event h]).
Proof.
  intros Hin Hkw.
  destruct (main_detail h)
    as [jd frames ? ? ? Hfr | | | | jd done frames kw' rest e'
       | jd frames e' ? ? ? Hfr | jd frames e' ? ? ? Hfr];
    cbn [trace outcome fst snd];
    try (destruct (fetched_answers h frames kw Hfr Hin) as [df Hdf];
         congruence).
  - split; [by eauto |]. split; [done | by left].
  - split; [by eauto |]. split; [done | by left].
  - split; [by eauto |]. split; [done | by left].
  - split; [by eauto |]. split.
    + rewrite !exports_app, exports_fetch_effects. reflexivity.
    + right. rewrite !progress_events_app, progress_fetch_effects.
      reflexivity.
Qed.

Lemma fetch_failure_leaves_no_output_witness :
  (exists e',
     outcome (main (sample_host [] (fun _ => Raise Exception))) = Raise e')
  /\ exports (trace (main (sample_host [] (fun _ => Raise Exception)))) = []
  /\ (progress_events (trace (main (sample_host [] (fun _ => Raise Exception))))
      = []
      \/ progress_events
           (trace (main (sample_host [] (fun _ => Raise Exception))))
         = [term_start_event (sample_host [] (fun _ => Raise Exception))]).
Proof.
  apply (fetch_failure_leaves_no_output
           (sample_host [] (fun _ => Raise Exception))
           (request (sample_host [] (fun _ => Raise Exception))
              [u "indeed"; u "linkedin"] (u "UK")) Exception).
  - vm_compute. left.
  - reflexivity.
Defined.



(** X19.  No file is written before the whole batch is there: if a run
    writes at all, every group has been fetched and the count reported,
    and the delimited file comes first, holding the batch; the
    structured file, if the run gets to it, holds the same records. *)
Theorem exports_only_after_all_fetches (h : Host) :
  exports (trace (main h)) <> [] ->
  exists jd frames more,
    fetched h frames
    /\ scrapes (trace (main h)) = dispatch_plan h
    /\ progress_events (trace (main h))
       = [ term_start_event h;
           term_complete_event h (pd.len (batch frames)) ]
    /\ exports (trace (main h))
       = (csv_path h, Some (columns (batch frames)), rows (batch frames))
         :: more
    /\ (more = []
        \/ more = [(json_path h jd, None, rows (batch frames))]).
Proof.
  destruct (main_detail h)
    as [jd frames ? ? ? Hfr | | | | jd done frames kw rest e
       | jd frames e ? ? ? Hfr | jd frames e ? ? ? Hfr];
    cbn [trace fst]; intros Hne.
  - exists jd, frames, [(json_path h jd, None, rows (batch frames))].
    split; [done |]. split; [apply scrapes_success_trace |].
    split; [apply progress_success_trace |].
    split; [apply exports_success_trace | by right].
  - done.
  - done.
  - done.
  - exfalso. apply Hne.
    rewrite !exports_app, exports_fetch_effects. reflexivity.
  - exists jd, frames, [].
    split; [done |]. split.
    { rewrite !scrapes_app, scrapes_dispatch_effects.
      transitivity (dispatch_plan h ++ []); [reflexivity |].
      by rewrite app_nil_r. }
    split.
    { rewrite !progress_events_app, progress_dispatch_effects. reflexivity. }
    split; [| by left].
    rewrite !exports_app, exports_dispatch_effects. reflexivity.
  - exists jd, frames, [(json_path h jd, None, rows (batch frames))].
    split; [done |]. split.
    { rewrite !scrapes_app, scrapes_dispatch_effects.
      transitivity (dispatch_plan h ++ []); [reflexivity |].
      by rewrite app_nil_r. }
    split.
    { rewrite !progress_events_app, progress_dispatch_effects. reflexivity. }
    split; [| by right].
    rewrite !exports_app, exports_dispatch_effects. reflexivity.
Qed.

Lemma exports_only_after_all_fetches_witness :
  exists frames,
    fetched (sample_host [] sample_fetch) frames
    /\ scrapes (trace (main (sample_host [] sample_fetch)))
       = dispatch_plan (sample_host [] sample_fetch).
Proof.
  destruct (exports_only_after_all_fetches (sample_host [] sample_fetch))
    as (jd & frames & more & Hfr & Hs & _).
  - vm_compute. discriminate.
  - exists frames. split; assumption.
Defined.



(** ** Integers read back *)

Section DecimalFacts.















End DecimalFacts.



(** ** When a run returns *)



(** X15.  The sites of the requests, read in dispatch order, are the
    requested sites other than [glassdoor], in the order and as often as
    requested, and then [glassdoor] once if it was requested at all. *)
Theorem dispatch_keeps_order (h : Host) :
  concat (List.map site_name (dispatch_plan h))
  = List.filter (fun site => negb (eqb site glassdoor)) (requested_sites h)
    ++ (if bool_decide (glassdoor ∈ requested_sites h) then [glassdoor] else [])
  /\ (forall status, outcome (main h) = Ok status ->
      concat (List.map site_name (scrapes (trace (main h))))
      = List.filter (fun site => negb (eqb site glassdoor)) (requested_sites h)
        ++ (if bool_decide (glassdoor ∈ requested_sites h)
            then [glassdoor] else [])).
Proof.
  assert (E : concat (List.map site_name (dispatch_plan h))
    = List.filter (fun site => negb (eqb site glassdoor)) (requested_sites h)
      ++ (if bool_decide (glassdoor ∈ requested_sites h)
          then [glassdoor] else [])).
  { rewrite plan_groups. fold (generic_group (requested_sites h)).
    fold (city_group (requested_sites h)). cbn [List.filter].
    destruct (generic_group _), (city_group _); cbn; by rewrite ?app_nil_r. }
  split; [exact E |]. intros status Hs.
  destruct (main h) as [t r] eqn:Em. cbn in Hs. subst r.
  destruct (main_returns h t status Em) as (jd & frames & _ & _ & -> & _).
  cbn [trace fst]. by rewrite scrapes_success_trace.
Qed.

Lemma dispatch_keeps_order_witness :
  concat (List.map site_name
    (scrapes (trace (main
       (sample_host [(u "JOBSPY_SITES", u "glassdoor,b,glassdoor,a,b")]
          sample_fetch)))))
  = List.filter (fun site => negb (eqb site glassdoor))
      (requested_sites
         (sample_host [(u "JOBSPY_SITES", u "glassdoor,b,glassdoor,a,b")]
            sample_fetch))
    ++ (if bool_decide
             (glassdoor
              ∈ requested_sites
                  (sample_host [(u "JOBSPY_SITES", u "glassdoor,b,glassdoor,a,b")]
                     sample_fetch))
        then [glassdoor] else []).
Proof.
  refine (proj2 (dispatch_keeps_order
    (sample_host [(u "JOBSPY_SITES", u "glassdoor,b,glassdoor,a,b")]
       sample_fetch)) 0%Z _).
  vm_compute. reflexivity.
Defined.
